(** * KeyboardTester: layout builder and key-state tracker

    A shallow embedding of [js/KeyboardTester.js] and [js/KeyboardLayouts.js].

    Key objects are shared between [Keyboard.keys] and the private index
    [Keyboard.#map]; the embedding keeps the key records in the [keys] list
    and lets the index hold references, a reference being the position of
    the key in [keys] (keys are only ever pushed, never removed).  The index
    is read and written through key-code strings only and is modelled by its
    own properties.  Pixel quantities are integers, as in every layout of
    the catalogue.  DOM painting is outside the model; each [renderKey] and
    [console.error] call is recorded in an effect trace instead. *)

From stdpp Require Import gmap strings list fin_maps pretty.
From Stdlib Require Import ZArith.

(** ** JavaScript values at the interfaces *)

(** A numeric argument as a call site supplies it. *)
Inductive NumArg :=
  | Omitted
  | Null
  | Num (n : Z).

(** A parameter declared [p = d] takes [d] only when the argument is left
    out; an explicit [null] stays [null] ([None]). *)
Definition with_default (d : Z) (a : NumArg) : option Z :=
  match a with
  | Omitted => Some d
  | Null => None
  | Num n => Some n
  end.

(** Numeric coercion of a [number|null]: [null] counts as 0, both in
    [x += v] and in [v > 0]. *)
Definition to_number (v : option Z) : Z := default 0%Z v.

(** What a property read on the index can give back, and what [getKey]
    can return. *)
Inductive Value :=
  | undefined
  | null
  | object (ref : nat).

Definition get_property (m : gmap string nat) (k : string) : Value :=
  match m !! k with
  | Some ref => object ref
  | None => undefined
  end.

(** [v === null] *)
Definition strict_eq_null (v : Value) : bool :=
  match v with
  | null => true
  | _ => false
  end.

(** Observable calls made on collaborators. *)
Inductive Effect :=
  | RenderKey (ref : nat)
  | ConsoleError (msg : string).

(** Structures are values here, so a deep copy is the value itself. *)
Definition deepCopy {A : Type} (obj : A) : A := obj.

(** ** Data model *)

Module IPosition.
Record t := mk { x : Z; y : Z }.
End IPosition.

Module ISize.
(** [None] is [null]: use the default. *)
Record t := mk { width : option Z; height : option Z }.
End ISize.

Inductive KeyState :=
  | NeverPressed
  | Pressed
  | Down.

(** [applyDefaultsTo(obj, defaults)]: every field of the copy that is null
    takes the default's value. *)
Definition applyDefaultsTo (obj defaults : ISize.t) : ISize.t :=
  let copy := deepCopy obj in
  {| ISize.width :=
       match ISize.width copy with
       | None => ISize.width defaults
       | Some w => Some w
       end;
     ISize.height :=
       match ISize.height copy with
       | None => ISize.height defaults
       | Some h => Some h
       end |}.

Module KeyShape.
Record t := mk {
  displayChar : string;
  shiftDisplayChar : string;
  keyCode : string;
  size : ISize.t;
  position : IPosition.t;
  zIndex : option string;
  state : KeyState
}.

(** Field initialisers followed by the constructor body. *)
Definition new (char keyCode : string) : t :=
  {| displayChar := char;
     shiftDisplayChar := " ";
     keyCode := keyCode;
     size := ISize.mk (Some 20%Z) (Some 20%Z);
     position := IPosition.mk 0 0;
     zIndex := None;
     state := NeverPressed |}.

Definition set_displayChar (v : string) (k : t) : t :=
  mk v (shiftDisplayChar k) (keyCode k) (size k) (position k) (zIndex k) (state k).
Definition set_shiftDisplayChar (v : string) (k : t) : t :=
  mk (displayChar k) v (keyCode k) (size k) (position k) (zIndex k) (state k).
Definition set_keyCode (v : string) (k : t) : t :=
  mk (displayChar k) (shiftDisplayChar k) v (size k) (position k) (zIndex k) (state k).
Definition set_size (v : ISize.t) (k : t) : t :=
  mk (displayChar k) (shiftDisplayChar k) (keyCode k) v (position k) (zIndex k) (state k).
Definition set_position (v : IPosition.t) (k : t) : t :=
  mk (displayChar k) (shiftDisplayChar k) (keyCode k) (size k) v (zIndex k) (state k).
Definition set_zIndex (v : option string) (k : t) : t :=
  mk (displayChar k) (shiftDisplayChar k) (keyCode k) (size k) (position k) v (state k).
Definition set_state (v : KeyState) (k : t) : t :=
  mk (displayChar k) (shiftDisplayChar k) (keyCode k) (size k) (position k) (zIndex k) v.
End KeyShape.

Module KeyboardRow.
(** The row's [keyboard] back-reference is not stored: the keyboard is
    passed to the row's methods. *)
Record t := mk {
  position : IPosition.t;
  nextPosition : IPosition.t
}.

Definition new (position : IPosition.t) : t :=
  let position := deepCopy position in
  {| position := position; nextPosition := deepCopy position |}.
End KeyboardRow.

(** The loop of [remap]: [map[key.keyCode] = key] for each key in array
    order, [i] being the reference of the first key of [ks]. *)
Fixpoint index_from (i : nat) (ks : list KeyShape.t) (m : gmap string nat)
  : gmap string nat :=
  match ks with
  | [] => m
  | key :: ks' => index_from (S i) ks' (<[KeyShape.keyCode key := i]> m)
  end.

Module Keyboard.
Record t := mk {
  keys : list KeyShape.t;
  nextRowPosition : IPosition.t;
  startPosition : IPosition.t;
  keySize : ISize.t;
  key_map : gmap string nat   (* #map *)
}.

Definition new : t :=
  let startPosition := IPosition.mk 10 10 in
  {| keys := [];
     nextRowPosition := deepCopy startPosition;
     startPosition := startPosition;
     keySize := ISize.mk (Some 20%Z) (Some 20%Z);
     key_map := ∅ |}.

Definition set_keys (v : list KeyShape.t) (kb : t) : t :=
  mk v (nextRowPosition kb) (startPosition kb) (keySize kb) (key_map kb).
Definition set_nextRowPosition (v : IPosition.t) (kb : t) : t :=
  mk (keys kb) v (startPosition kb) (keySize kb) (key_map kb).
Definition set_key_map (v : gmap string nat) (kb : t) : t :=
  mk (keys kb) (nextRowPosition kb) (startPosition kb) (keySize kb) v.

(** Assignment to fields of the key object behind reference [ref]. *)
Definition update_key (ref : nat) (f : KeyShape.t → KeyShape.t) (kb : t) : t :=
  set_keys (alter f ref (keys kb)) kb.

(** [addKey(key)]: the pushed key gets the next free reference. *)
Definition addKey (key : KeyShape.t) (kb : t) : t :=
  let ref := length (keys kb) in
  set_key_map (<[KeyShape.keyCode key := ref]> (key_map kb))
    (set_keys (keys kb ++ [key]) kb).

(** [nextRow(gap = 0)] *)
Definition nextRow (gap : NumArg) (kb : t) : KeyboardRow.t * t :=
  let gap := with_default 0 gap in
  let p := nextRowPosition kb in
  let p := IPosition.mk (IPosition.x p) (IPosition.y p + to_number gap) in
  let row := KeyboardRow.new p in
  let p := IPosition.mk (IPosition.x (startPosition kb)) (IPosition.y p) in
  let p := IPosition.mk (IPosition.x p)
             (IPosition.y p + to_number (ISize.height (keySize kb))) in
  (row, set_nextRowPosition p kb).

Definition onKeyDown (keyCode : string) (kb : t) : t * list Effect :=
  match get_property (key_map kb) keyCode with
  | object key => (update_key key (KeyShape.set_state Down) kb, [RenderKey key])
  | undefined | null => (kb, [])
  end.

Definition onKeyUp (keyCode : string) (kb : t) : t * list Effect :=
  match get_property (key_map kb) keyCode with
  | object key => (update_key key (KeyShape.set_state Pressed) kb, [RenderKey key])
  | undefined | null => (kb, [])
  end.

Definition clear (kb : t) : t * list Effect :=
  (set_keys (KeyShape.set_state NeverPressed <$> keys kb) kb,
   imap (λ ref _, RenderKey ref) (keys kb)).

Definition remap (kb : t) : t :=
  set_key_map (index_from 0 (keys kb) ∅) kb.

Definition getKey (keyCode : string) (kb : t) : Value * list Effect :=
  let key := get_property (key_map kb) keyCode in
  if strict_eq_null key
  then (null, [ConsoleError ("could not find key " +:+ keyCode)])
  else (key, []).
End Keyboard.

(** [KeyboardRow.addKey(displayChar, keyCode, width = -1, shiftChar = null)]:
    returns the reference of the new key, the advanced row and the keyboard
    holding the key. *)
Definition KeyboardRow_addKey (displayChar keyCode : string) (width : NumArg)
    (shiftChar : option string) (row : KeyboardRow.t) (kb : Keyboard.t)
  : nat * KeyboardRow.t * Keyboard.t :=
  let width := with_default (-1) width in
  let key := KeyShape.new displayChar keyCode in
  let key :=
    match shiftChar with
    | Some (String c s) => KeyShape.set_shiftDisplayChar (String c s) key
    | Some EmptyString | None => key
    end in
  let key := KeyShape.set_position (deepCopy (KeyboardRow.nextPosition row)) key in
  let key :=
    KeyShape.set_size
      (ISize.mk (if (0 <? to_number width)%Z then width else None)
                (ISize.height (KeyShape.size key))) key in
  let key := KeyShape.set_size (ISize.mk (ISize.width (KeyShape.size key)) None) key in
  let size := applyDefaultsTo (KeyShape.size key) (Keyboard.keySize kb) in
  let np := KeyboardRow.nextPosition row in
  let row :=
    KeyboardRow.mk (KeyboardRow.position row)
      (IPosition.mk (IPosition.x np + to_number (ISize.width size)) (IPosition.y np)) in
  (length (Keyboard.keys kb), row, Keyboard.addKey key kb).

(** [KeyboardRow.addGap(width)] *)
Definition KeyboardRow_addGap (width : Z) (row : KeyboardRow.t) (kb : Keyboard.t)
  : KeyboardRow.t * Keyboard.t :=
  let np := KeyboardRow.nextPosition row in
  (KeyboardRow.mk (KeyboardRow.position row)
     (IPosition.mk (IPosition.x np + width) (IPosition.y np)),
   kb).

(** ** Layout catalogue ([KeyboardLayouts.js]) *)

(** How a call ends: with a value, or with a thrown error. *)
Inductive Completion (A : Type) :=
  | Normal (a : A)
  | Throw (err : string).
Arguments Normal {A} a.
Arguments Throw {A} err.

(** The statements of a layout block run over the block's [row] and the
    [keyboard] under construction. *)
Definition Script (A : Type) : Type :=
  KeyboardRow.t * Keyboard.t → A * (KeyboardRow.t * Keyboard.t).

#[global] Instance script_ret : MRet Script := λ A a s, (a, s).
#[global] Instance script_bind : MBind Script :=
  λ A B f c s, let '(a, s') := c s in f a s'.

(** [row.addKey(...)] *)
Definition row_addKey (displayChar keyCode : string) (width : NumArg)
    (shiftChar : option string) : Script nat :=
  λ '(row, kb),
    let '(key, row, kb) := KeyboardRow_addKey displayChar keyCode width shiftChar row kb in
    (key, (row, kb)).

(** [row.addGap(width)] *)
Definition row_addGap (width : Z) : Script unit :=
  λ '(row, kb), (tt, KeyboardRow_addGap width row kb).

(** [keyboard.keySize.height] *)
Definition keySize_height : Script (option Z) :=
  λ '(row, kb), (ISize.height (Keyboard.keySize kb), (row, kb)).

#[global] Instance KeyShape_inhabited : Inhabited KeyShape.t :=
  populate (KeyShape.new " " " ").

(** The key object behind a reference returned by [row.addKey]. *)
Definition read (key : nat) : Script KeyShape.t :=
  λ '(row, kb), (Keyboard.keys kb !!! key, (row, kb)).

(** Assignment to a field of the key behind a reference. *)
Definition assign (key : nat) (f : KeyShape.t → KeyShape.t) : Script unit :=
  λ '(row, kb), (tt, (row, Keyboard.update_key key f kb)).

(** [key.size.height = v] *)
Definition set_size_height (v : option Z) (k : KeyShape.t) : KeyShape.t :=
  KeyShape.set_size (ISize.mk (ISize.width (KeyShape.size k)) v) k.

(** [key.position.x = v] *)
Definition set_position_x (v : Z) (k : KeyShape.t) : KeyShape.t :=
  KeyShape.set_position (IPosition.mk v (IPosition.y (KeyShape.position k))) k.

(** [key.position.y += d] *)
Definition add_position_y (d : Z) (k : KeyShape.t) : KeyShape.t :=
  KeyShape.set_position
    (IPosition.mk (IPosition.x (KeyShape.position k))
                  (IPosition.y (KeyShape.position k) + d)) k.

(** [{ let row = keyboard.nextRow(gap); body }] *)
Definition in_row {A : Type} (gap : NumArg) (body : Script A) (keyboard : Keyboard.t)
  : Keyboard.t :=
  let '(row, keyboard) := Keyboard.nextRow gap keyboard in
  snd (snd (body (row, keyboard))).

(** The one-character string holding a double quote. *)
Definition dquote : string := String (Ascii.ascii_of_nat 34) EmptyString.

Module KeyboardModel.
Record t := mk {
  id : string;
  name : string;
  keyboard : unit → Completion Keyboard.t
}.
End KeyboardModel.

Module KeyboardDefinitions.
Local Open Scope Z_scope.

Definition getWindowsLogitechKeyboard (_ : unit) : Completion Keyboard.t :=
  let keyboard := Keyboard.new in
  let keyboard := in_row Omitted (
      row_addKey "Esc" "Escape" Omitted None;;
      row_addGap 15;;
      row_addKey "F1" "F1" Omitted None;;
      row_addKey "F2" "F2" Omitted None;;
      row_addKey "F3" "F3" Omitted None;;
      row_addKey "F4" "F4" Omitted None;;
      row_addGap 15;;
      row_addKey "F5" "F5" Omitted None;;
      row_addKey "F6" "F6" Omitted None;;
      row_addKey "F7" "F7" Omitted None;;
      row_addKey "F8" "F8" Omitted None;;
      row_addGap 15;;
      row_addKey "F9" "F9" Omitted None;;
      row_addKey "F10" "F10" Omitted None;;
      row_addKey "F11" "F11" Omitted None;;
      row_addKey "F12" "F12" Omitted None;;
      row_addGap 10;;
      row_addKey "prsc" "f13" Omitted None;;
      row_addKey "sclk" "ScrollLock" Omitted None;;
      row_addKey "pause" "Pause" Omitted None
    ) keyboard in
  let keyboard := in_row (Num 5) (
      row_addKey "`" "Backquote" Null (Some "~");;
      row_addKey "1" "Digit1" Null (Some "!");;
      row_addKey "2" "Digit2" Null (Some "@");;
      row_addKey "3" "Digit3" Null (Some "#");;
      row_addKey "4" "Digit4" Null (Some "$");;
      row_addKey "5" "Digit5" Null (Some "%");;
      row_addKey "6" "Digit6" Null (Some "^");;
      row_addKey "7" "Digit7" Null (Some "&");;
      row_addKey "8" "Digit8" Null (Some "*");;
      row_addKey "9" "Digit9" Null (Some "(");;
      row_addKey "0" "Digit0" Null (Some ")");;
      row_addKey "-" "Minus" Null (Some "_");;
      row_addKey "=" "Equal" Null (Some "+");;
      row_addKey "Backspace" "Backspace" (Num 45) None;;
      row_addGap 10;;
      row_addKey "ins" "Insert" Omitted None;;
      row_addKey "home" "Home" Omitted None;;
      row_addKey "pgup" "PageUp" Omitted None;;
      row_addGap 10;;
      row_addKey "numlock" "NumLock" Omitted None;;
      row_addKey "/" "NumpadDivide" Omitted None;;
      row_addKey "*" "NumpadMultiply" Omitted None;;
      row_addKey "-" "NumpadSubtract" Omitted None
    ) keyboard in
  let keyboard := in_row Omitted (
      row_addKey "Tab" "Tab" (Num 30) None;;
      row_addKey "q" "KeyQ" Omitted None;;
      row_addKey "w" "KeyW" Omitted None;;
      row_addKey "e" "KeyE" Omitted None;;
      row_addKey "r" "KeyR" Omitted None;;
      row_addKey "t" "KeyT" Omitted None;;
      row_addKey "y" "KeyY" Omitted None;;
      row_addKey "u" "KeyU" Omitted None;;
      row_addKey "i" "KeyI" Omitted None;;
      row_addKey "o" "KeyO" Omitted None;;
      row_addKey "p" "KeyP" Omitted None;;
      row_addKey "[" "BracketLeft" Omitted None;;
      row_addKey "]" "BracketRight" Omitted None;;
      row_addKey "\" "Backslash" (Num 35) None;;
      row_addGap 10;;
      row_addKey "del" "Delete" Omitted None;;
      row_addKey "end" "End" Omitted None;;
      row_addKey "pgdn" "PageDown" Omitted None;;
      row_addGap 10;;
      row_addKey "7" "Numpad7" Omitted None;;
      row_addKey "8" "Numpad8" Omitted None;;
      row_addKey "9" "Numpad9" Omitted None;;
      addKey ← row_addKey "+" "NumpadAdd" Omitted None;
      height ← keySize_height; assign addKey (set_size_height (Some (to_number height * 2)%Z))
    ) keyboard in
  let keyboard := in_row Omitted (
      row_addKey "Caps" "CapsLock" (Num 35) None;;
      row_addKey "a" "KeyA" Omitted None;;
      row_addKey "s" "KeyS" Omitted None;;
      row_addKey "d" "KeyD" Omitted None;;
      row_addKey "f" "KeyF" Omitted None;;
      row_addKey "g" "KeyG" Omitted None;;
      row_addKey "h" "KeyH" Omitted None;;
      row_addKey "j" "KeyJ" Omitted None;;
      row_addKey "k" "KeyK" Omitted None;;
      row_addKey "l" "KeyL" Omitted None;;
      row_addKey ";" "Semicolon" Null (Some ":");;
      row_addKey "'" "Quote" Null (Some dquote);;
      row_addKey "Enter" "Enter" (Num 50) None;;
      row_addGap 80;;
      row_addKey "4" "Numpad4" Omitted None;;
      row_addKey "5" "Numpad5" Omitted None;;
      row_addKey "6" "Numpad6" Omitted None
    ) keyboard in
  let keyboard := in_row Omitted (
      row_addKey "Shift" "ShiftLeft" (Num 45) None;;
      row_addKey "z" "KeyZ" Omitted None;;
      row_addKey "x" "KeyX" Omitted None;;
      row_addKey "c" "KeyC" Omitted None;;
      row_addKey "v" "KeyV" Omitted None;;
      row_addKey "b" "KeyB" Omitted None;;
      row_addKey "n" "KeyN" Omitted None;;
      row_addKey "m" "KeyM" Omitted None;;
      row_addKey "," "Comma" Null (Some "<");;
      row_addKey "." "Period" Null (Some ">");;
      row_addKey "/" "Slash" Null (Some "?");;
      row_addKey "Shift" "ShiftRight" (Num 60) None;;
      row_addGap 10;;
      row_addGap 20;;
      row_addKey "↑" "ArrowUp" Omitted None;;
      row_addGap 20;;
      row_addGap 10;;
      row_addKey "1" "Numpad1" Omitted None;;
      row_addKey "2" "Numpad2" Omitted None;;
      row_addKey "3" "Numpad3" Omitted None;;
      enterKey ← row_addKey "Enter" "NumpadEnter" Omitted None;
      height ← keySize_height; assign enterKey (set_size_height (Some (to_number height * 2)%Z))
    ) keyboard in
  let keyboard := in_row Omitted (
      row_addKey "Ctrl" "ControlLeft" (Num 30) None;;
      row_addKey "Win" "MetaLeft" (Num 25) None;;
      row_addKey "Alt" "AltLeft" (Num 25) None;;
      row_addKey "space" "Space" (Num 120) None;;
      row_addKey "Alt" "AltRight" (Num 30) None;;
      row_addKey "Menu" "ContextMenu" (Num 35) None;;
      row_addKey "Ctrl" "ControlRight" (Num 40) None;;
      row_addGap 10;;
      row_addKey "←" "ArrowLeft" Omitted None;;
      row_addKey "↓" "ArrowDown" Omitted None;;
      row_addKey "→" "ArrowRight" Omitted None;;
      row_addGap 10;;
      row_addKey "0" "Numpad0" (Num 40) None;;
      row_addKey "." "NumpadDecimal" Omitted None
    ) keyboard in
  Normal keyboard.

(** The Logitech layout with its menu key relabelled.  [getKey] may hand
    back a value that is not a key object, on which the field assignment
    throws. *)
Definition getWindowsLogitech2Keyboard (_ : unit) : Completion Keyboard.t :=
  match getWindowsLogitechKeyboard tt with
  | Throw err => Throw err
  | Normal keyboard =>
      match fst (Keyboard.getKey "ContextMenu" keyboard) with
      | object fnKey =>
          let keyboard := Keyboard.update_key fnKey (KeyShape.set_displayChar "Fn") keyboard in
          let keyboard := Keyboard.update_key fnKey (KeyShape.set_keyCode "Fn") keyboard in
          let keyboard := Keyboard.remap keyboard in
          Normal keyboard
      | undefined | null => Throw "TypeError: cannot set properties of a value that is not an object"
      end
  end.

Definition getWindowsHPDesktopKeyboard (_ : unit) : Completion Keyboard.t :=
  let keyboard := Keyboard.new in
  let keyboard := in_row Omitted (
      row_addKey "Esc" "Escape" Omitted None;;
      row_addGap 19;;
      row_addKey "F1" "F1" Omitted None;;
      row_addKey "F2" "F2" Omitted None;;
      row_addKey "F3" "F3" Omitted None;;
      row_addKey "F4" "F4" Omitted None;;
      row_addGap 13;;
      row_addKey "F5" "F5" Omitted None;;
      row_addKey "F6" "F6" Omitted None;;
      row_addKey "F7" "F7" Omitted None;;
      row_addKey "F8" "F8" Omitted None;;
      row_addGap 13;;
      row_addKey "F9" "F9" Omitted None;;
      row_addKey "F10" "F10" Omitted None;;
      row_addKey "F11" "F11" Omitted None;;
      row_addKey "F12" "F12" Omitted None;;
      row_addGap 10;;
      row_addKey "prsc" "f13" Omitted None;;
      row_addKey "sclk" "ScrollLock" Omitted None;;
      row_addKey "pause" "Pause" Omitted None
    ) keyboard in
  let keyboard := in_row (Num 5) (
      row_addKey "`" "Backquote" Null (Some "~");;
      row_addKey "1" "Digit1" Null (Some "!");;
      row_addKey "2" "Digit2" Null (Some "@");;
      row_addKey "3" "Digit3" Null (Some "#");;
      row_addKey "4" "Digit4" Null (Some "$");;
      row_addKey "5" "Digit5" Null (Some "%");;
      row_addKey "6" "Digit6" Null (Some "^");;
      row_addKey "7" "Digit7" Null (Some "&");;
      row_addKey "8" "Digit8" Null (Some "*");;
      row_addKey "9" "Digit9" Null (Some "(");;
      row_addKey "0" "Digit0" Null (Some ")");;
      row_addKey "-" "Minus" Null (Some "_");;
      row_addKey "=" "Equal" Null (Some "+");;
      row_addKey "Backspace" "Backspace" (Num 45) None;;
      row_addGap 10;;
      row_addKey "ins" "Insert" Omitted None;;
      row_addKey "home" "Home" Omitted None;;
      row_addKey "pgup" "PageUp" Omitted None;;
      row_addGap 10;;
      row_addKey "numlock" "NumLock" Omitted None;;
      row_addKey "/" "NumpadDivide" Omitted None;;
      row_addKey "*" "NumpadMultiply" Omitted None;;
      row_addKey "-" "NumpadSubtract" Omitted None
    ) keyboard in
  let keyboard := in_row Omitted (
      row_addKey "Tab" "Tab" (Num 30) None;;
      row_addKey "q" "KeyQ" Omitted None;;
      row_addKey "w" "KeyW" Omitted None;;
      row_addKey "e" "KeyE" Omitted None;;
      row_addKey "r" "KeyR" Omitted None;;
      row_addKey "t" "KeyT" Omitted None;;
      row_addKey "y" "KeyY" Omitted None;;
      row_addKey "u" "KeyU" Omitted None;;
      row_addKey "i" "KeyI" Omitted None;;
      row_addKey "o" "KeyO" Omitted None;;
      row_addKey "p" "KeyP" Omitted None;;
      row_addKey "[" "BracketLeft" Omitted None;;
      row_addKey "]" "BracketRight" Omitted None;;
      row_addKey "\" "Backslash" (Num 35) None;;
      row_addGap 10;;
      row_addKey "del" "Delete" Omitted None;;
      row_addKey "end" "End" Omitted None;;
      row_addKey "pgdn" "PageDown" Omitted None;;
      row_addGap 10;;
      row_addKey "7" "Numpad7" Omitted None;;
      row_addKey "8" "Numpad8" Omitted None;;
      row_addKey "9" "Numpad9" Omitted None;;
      addKey ← row_addKey "+" "NumpadAdd" Omitted None;
      height ← keySize_height; assign addKey (set_size_height (Some (to_number height * 2)%Z))
    ) keyboard in
  let keyboard := in_row Omitted (
      row_addKey "Caps" "CapsLock" (Num 35) None;;
      row_addKey "a" "KeyA" Omitted None;;
      row_addKey "s" "KeyS" Omitted None;;
      row_addKey "d" "KeyD" Omitted None;;
      row_addKey "f" "KeyF" Omitted None;;
      row_addKey "g" "KeyG" Omitted None;;
      row_addKey "h" "KeyH" Omitted None;;
      row_addKey "j" "KeyJ" Omitted None;;
      row_addKey "k" "KeyK" Omitted None;;
      row_addKey "l" "KeyL" Omitted None;;
      row_addKey ";" "Semicolon" Null (Some ":");;
      row_addKey "'" "Quote" Null (Some dquote);;
      row_addKey "Enter" "Enter" (Num 50) None;;
      row_addGap 10;;
      row_addGap 60;;
      row_addGap 10;;
      row_addKey "4" "Numpad4" Omitted None;;
      row_addKey "5" "Numpad5" Omitted None;;
      row_addKey "6" "Numpad6" Omitted None
    ) keyboard in
  let keyboard := in_row Omitted (
      row_addKey "Shift" "ShiftLeft" (Num 45) None;;
      row_addKey "z" "KeyZ" Omitted None;;
      row_addKey "x" "KeyX" Omitted None;;
      row_addKey "c" "KeyC" Omitted None;;
      row_addKey "v" "KeyV" Omitted None;;
      row_addKey "b" "KeyB" Omitted None;;
      row_addKey "n" "KeyN" Omitted None;;
      row_addKey "m" "KeyM" Omitted None;;
      row_addKey "," "Comma" Null (Some "<");;
      row_addKey "." "Period" Null (Some ">");;
      row_addKey "/" "Slash" Null (Some "?");;
      row_addKey "Shift" "ShiftRight" (Num 60) None;;
      row_addGap 10;;
      row_addGap 20;;
      row_addKey "↑" "ArrowUp" Omitted None;;
      row_addGap 20;;
      row_addGap 10;;
      row_addKey "1" "Numpad1" Omitted None;;
      row_addKey "2" "Numpad2" Omitted None;;
      row_addKey "3" "Numpad3" Omitted None;;
      enterKey ← row_addKey "Enter" "NumpadEnter" Omitted None;
      height ← keySize_height; assign enterKey (set_size_height (Some (to_number height * 2)%Z))
    ) keyboard in
  let keyboard := in_row Omitted (
      row_addKey "Ctrl" "ControlLeft" (Num 30) None;;
      row_addKey "Win" "MetaLeft" (Num 25) None;;
      row_addKey "Alt" "AltLeft" (Num 25) None;;
      row_addKey "space" "Space" (Num 115) None;;
      row_addKey "Alt" "AltRight" (Num 25) None;;
      row_addKey "Win" "MetaRight" (Num 25) None;;
      row_addKey "Menu" "ContextMenu" (Num 25) None;;
      row_addKey "Ctrl" "ControlRight" (Num 35) None;;
      row_addGap 10;;
      row_addKey "←" "ArrowLeft" Omitted None;;
      row_addKey "↓" "ArrowDown" Omitted None;;
      row_addKey "→" "ArrowRight" Omitted None;;
      row_addGap 10;;
      row_addKey "0" "Numpad0" (Num 40) None;;
      row_addKey "." "NumpadDecimal" Omitted None
    ) keyboard in
  Normal keyboard.

Definition getWindowsGenericKeyboard (_ : unit) : Completion Keyboard.t :=
  let keyboard := Keyboard.new in
  let keyboard := in_row Omitted (
      row_addKey "Esc" "Escape" Omitted None;;
      row_addGap 19;;
      row_addKey "F1" "F1" Omitted None;;
      row_addKey "F2" "F2" Omitted None;;
      row_addKey "F3" "F3" Omitted None;;
      row_addKey "F4" "F4" Omitted None;;
      row_addGap 13;;
      row_addKey "F5" "F5" Omitted None;;
      row_addKey "F6" "F6" Omitted None;;
      row_addKey "F7" "F7" Omitted None;;
      row_addKey "F8" "F8" Omitted None;;
      row_addGap 13;;
      row_addKey "F9" "F9" Omitted None;;
      row_addKey "F10" "F10" Omitted None;;
      row_addKey "F11" "F11" Omitted None;;
      row_addKey "F12" "F12" Omitted None;;
      row_addGap 10;;
      row_addKey "Power" "Power" Omitted None;;
      row_addKey "Sleep" "Sleep" Omitted None;;
      row_addKey "Wake" "Wake" Omitted None
    ) keyboard in
  let keyboard := in_row (Num 5) (
      row_addKey "`" "Backquote" Null (Some "~");;
      row_addKey "1" "Digit1" Null (Some "!");;
      row_addKey "2" "Digit2" Null (Some "@");;
      row_addKey "3" "Digit3" Null (Some "#");;
      row_addKey "4" "Digit4" Null (Some "$");;
      row_addKey "5" "Digit5" Null (Some "%");;
      row_addKey "6" "Digit6" Null (Some "^");;
      row_addKey "7" "Digit7" Null (Some "&");;
      row_addKey "8" "Digit8" Null (Some "*");;
      row_addKey "9" "Digit9" Null (Some "(");;
      row_addKey "0" "Digit0" Null (Some ")");;
      row_addKey "-" "Minus" Null (Some "_");;
      row_addKey "=" "Equal" Null (Some "+");;
      row_addKey "Backspace" "Backspace" (Num 45) None;;
      row_addGap 10;;
      row_addKey "prsc" "f13" Omitted None;;
      row_addKey "sclk" "ScrollLock" Omitted None;;
      row_addKey "pause" "Pause" Omitted None;;
      row_addGap 10;;
      row_addKey "numlock" "NumLock" Omitted None;;
      row_addKey "/" "NumpadDivide" Omitted None;;
      row_addKey "*" "NumpadMultiply" Omitted None;;
      row_addKey "-" "NumpadSubtract" Omitted None
    ) keyboard in
  let keyboard := in_row Omitted (
      row_addKey "Tab" "Tab" (Num 30) None;;
      row_addKey "q" "KeyQ" Omitted None;;
      row_addKey "w" "KeyW" Omitted None;;
      row_addKey "e" "KeyE" Omitted None;;
      row_addKey "r" "KeyR" Omitted None;;
      row_addKey "t" "KeyT" Omitted None;;
      row_addKey "y" "KeyY" Omitted None;;
      row_addKey "u" "KeyU" Omitted None;;
      row_addKey "i" "KeyI" Omitted None;;
      row_addKey "o" "KeyO" Omitted None;;
      row_addKey "p" "KeyP" Omitted None;;
      row_addKey "[" "BracketLeft" Omitted None;;
      row_addKey "]" "BracketRight" Omitted None;;
      enterKey ← row_addKey "enter" "Enter" (Num 35) None;
      height ← keySize_height; assign enterKey (set_size_height (Some (to_number height * 2)%Z));;
      assign enterKey (KeyShape.set_zIndex (Some "0"));;
      row_addGap 10;;
      row_addKey "ins" "Insert" Omitted None;;
      row_addKey "home" "Home" Omitted None;;
      row_addKey "pgup" "PageUp" Omitted None;;
      row_addGap 10;;
      row_addKey "7" "Numpad7" Omitted None;;
      row_addKey "8" "Numpad8" Omitted None;;
      row_addKey "9" "Numpad9" Omitted None;;
      addKey ← row_addKey "+" "NumpadAdd" Omitted None;
      height ← keySize_height; assign addKey (set_size_height (Some (to_number height * 2)%Z))
    ) keyboard in
  let keyboard := in_row Omitted (
      row_addKey "Caps" "CapsLock" (Num 35) None;;
      row_addKey "a" "KeyA" Omitted None;;
      row_addKey "s" "KeyS" Omitted None;;
      row_addKey "d" "KeyD" Omitted None;;
      row_addKey "f" "KeyF" Omitted None;;
      row_addKey "g" "KeyG" Omitted None;;
      row_addKey "h" "KeyH" Omitted None;;
      row_addKey "j" "KeyJ" Omitted None;;
      row_addKey "k" "KeyK" Omitted None;;
      row_addKey "l" "KeyL" Omitted None;;
      row_addKey ";" "Semicolon" Null (Some ":");;
      row_addKey "'" "Quote" Null (Some dquote);;
      row_addKey "\" "Backslash" Omitted None;;
      row_addGap 30;;
      row_addGap 10;;
      row_addKey "del" "Delete" Omitted None;;
      row_addKey "end" "End" Omitted None;;
      row_addKey "pgdn" "PageDown" Omitted None;;
      row_addGap 10;;
      row_addKey "4" "Numpad4" Omitted None;;
      row_addKey "5" "Numpad5" Omitted None;;
      row_addKey "6" "Numpad6" Omitted None
    ) keyboard in
  let keyboard := in_row Omitted (
      row_addKey "Shift" "ShiftLeft" (Num 45) None;;
      row_addKey "z" "KeyZ" Omitted None;;
      row_addKey "x" "KeyX" Omitted None;;
      row_addKey "c" "KeyC" Omitted None;;
      row_addKey "v" "KeyV" Omitted None;;
      row_addKey "b" "KeyB" Omitted None;;
      row_addKey "n" "KeyN" Omitted None;;
      row_addKey "m" "KeyM" Omitted None;;
      row_addKey "," "Comma" Null (Some "<");;
      row_addKey "." "Period" Null (Some ">");;
      row_addKey "/" "Slash" Null (Some "?");;
      row_addKey "Shift" "ShiftRight" (Num 60) None;;
      row_addGap 10;;
      row_addGap 20;;
      row_addKey "↑" "ArrowUp" Omitted None;;
      row_addGap 20;;
      row_addGap 10;;
      row_addKey "1" "Numpad1" Omitted None;;
      row_addKey "2" "Numpad2" Omitted None;;
      row_addKey "3" "Numpad3" Omitted None;;
      enterKey ← row_addKey "Enter" "NumpadEnter" Omitted None;
      height ← keySize_height; assign enterKey (set_size_height (Some (to_number height * 2)%Z))
    ) keyboard in
  let keyboard := in_row Omitted (
      row_addKey "Ctrl" "ControlLeft" (Num 30) None;;
      row_addKey "Win" "MetaLeft" (Num 25) None;;
      row_addKey "Alt" "AltLeft" (Num 25) None;;
      row_addKey "space" "Space" (Num 115) None;;
      row_addKey "Alt" "AltRight" (Num 25) None;;
      row_addKey "Win" "MetaRight" (Num 25) None;;
      row_addKey "Menu" "ContextMenu" (Num 25) None;;
      row_addKey "Ctrl" "ControlRight" (Num 35) None;;
      row_addGap 10;;
      row_addKey "←" "ArrowLeft" Omitted None;;
      row_addKey "↓" "ArrowDown" Omitted None;;
      row_addKey "→" "ArrowRight" Omitted None;;
      row_addGap 10;;
      row_addKey "0" "Numpad0" (Num 40) None;;
      row_addKey "." "NumpadDecimal" Omitted None
    ) keyboard in
  Normal keyboard.

Definition getMacBookProKeyboard (_ : unit) : Completion Keyboard.t :=
  let keyboard := Keyboard.new in
  let keyboard := in_row Omitted (
      row_addKey "Esc" "Escape" (Num 30) None;;
      row_addKey "F1" "F1" Omitted None;;
      row_addKey "F2" "F2" Omitted None;;
      row_addKey "F3" "F3" Omitted None;;
      row_addKey "F4" "F4" Omitted None;;
      row_addKey "F5" "F5" Omitted None;;
      row_addKey "F6" "F6" Omitted None;;
      row_addKey "F7" "F7" Omitted None;;
      row_addKey "F8" "F8" Omitted None;;
      row_addKey "F9" "F9" Omitted None;;
      row_addKey "F10" "F10" Omitted None;;
      row_addKey "F11" "F11" Omitted None;;
      row_addKey "F12" "F12" Omitted None;;
      row_addKey "F13" "f13" (Num 25) None
    ) keyboard in
  let keyboard := in_row (Num 5) (
      row_addKey "`" "Backquote" Null (Some "~");;
      row_addKey "1" "Digit1" Null (Some "!");;
      row_addKey "2" "Digit2" Null (Some "@");;
      row_addKey "3" "Digit3" Null (Some "#");;
      row_addKey "4" "Digit4" Null (Some "$");;
      row_addKey "5" "Digit5" Null (Some "%");;
      row_addKey "6" "Digit6" Null (Some "^");;
      row_addKey "7" "Digit7" Null (Some "&");;
      row_addKey "8" "Digit8" Null (Some "*");;
      row_addKey "9" "Digit9" Null (Some "(");;
      row_addKey "0" "Digit0" Null (Some ")");;
      row_addKey "-" "Minus" Null (Some "_");;
      row_addKey "=" "Equal" Null (Some "+");;
      row_addKey "delete" "Backspace" (Num 35) None
    ) keyboard in
  let keyboard := in_row Omitted (
      row_addKey "tab" "Tab" (Num 30) None;;
      row_addKey "q" "KeyQ" Omitted None;;
      row_addKey "w" "KeyW" Omitted None;;
      row_addKey "e" "KeyE" Omitted None;;
      row_addKey "r" "KeyR" Omitted None;;
      row_addKey "t" "KeyT" Omitted None;;
      row_addKey "y" "KeyY" Omitted None;;
      row_addKey "u" "KeyU" Omitted None;;
      row_addKey "i" "KeyI" Omitted None;;
      row_addKey "o" "KeyO" Omitted None;;
      row_addKey "p" "KeyP" Omitted None;;
      row_addKey "[" "BracketLeft" Omitted None;;
      row_addKey "]" "BracketRight" Omitted None;;
      row_addKey "\" "Backslash" (Num 25) (Some "|")
    ) keyboard in
  let keyboard := in_row Omitted (
      row_addKey "caps" "CapsLock" (Num 35) None;;
      row_addKey "a" "KeyA" Omitted None;;
      row_addKey "s" "KeyS" Omitted None;;
      row_addKey "d" "KeyD" Omitted None;;
      row_addKey "f" "KeyF" Omitted None;;
      row_addKey "g" "KeyG" Omitted None;;
      row_addKey "h" "KeyH" Omitted None;;
      row_addKey "j" "KeyJ" Omitted None;;
      row_addKey "k" "KeyK" Omitted None;;
      row_addKey "l" "KeyL" Omitted None;;
      row_addKey ";" "Semicolon" Null (Some ":");;
      row_addKey "'" "Quote" Null (Some dquote);;
      row_addKey "Return" "Enter" (Num 40) None
    ) keyboard in
  let keyboard := in_row Omitted (
      row_addKey "Shift" "ShiftLeft" (Num 45) None;;
      row_addKey "z" "KeyZ" Omitted None;;
      row_addKey "x" "KeyX" Omitted None;;
      row_addKey "c" "KeyC" Omitted None;;
      row_addKey "v" "KeyV" Omitted None;;
      row_addKey "b" "KeyB" Omitted None;;
      row_addKey "n" "KeyN" Omitted None;;
      row_addKey "m" "KeyM" Omitted None;;
      row_addKey "," "Comma" Null (Some "<");;
      row_addKey "." "Period" Null (Some ">");;
      row_addKey "/" "Slash" Null (Some "?");;
      row_addKey "Shift" "ShiftRight" (Num 50) None
    ) keyboard in
  let keyboard := in_row Omitted (
      row_addKey "Fn" "Function" (Num 20) None;;
      row_addKey "⌃" "ControlLeft" (Num 20) None;;
      row_addKey "⌥" "AltLeft" (Num 20) None;;
      row_addKey "⌘" "MetaLeft" (Num 25) None;;
      row_addKey "space" "Space" (Num 105) None;;
      row_addKey "⌘" "MetaRight" (Num 25) None;;
      row_addKey "⌥" "AltRight" (Num 20) None;;
      left ← row_addKey "←" "ArrowLeft" Omitted None;
      assign left (set_size_height (Some 10%Z));;
      down ← row_addKey "↓" "ArrowDown" Omitted None;
      assign down (set_size_height (Some 10%Z));;
      right ← row_addKey "→" "ArrowRight" Omitted None;
      assign right (set_size_height (Some 10%Z));;
      up ← row_addKey "↑" "ArrowUp" Omitted None;
      assign up (set_size_height (Some 10%Z));;
      src ← read down; assign up (set_position_x (IPosition.x (KeyShape.position src)));;
      assign left (add_position_y 10);;
      assign down (add_position_y 10);;
      assign right (add_position_y 10)
    ) keyboard in
  Normal keyboard.

Definition getOptions : list KeyboardModel.t :=
  [ KeyboardModel.mk "cheap" "Generic Windows Keyboard" getWindowsGenericKeyboard;
    KeyboardModel.mk "hp-lowend" "HP Low End Desktop Keyboard" getWindowsHPDesktopKeyboard;
    KeyboardModel.mk "logitech" "Logitech Windows Desktop Keyboard" getWindowsLogitechKeyboard;
    KeyboardModel.mk "logitech2" "Logitech Windows Desktop Keyboard 2" getWindowsLogitech2Keyboard;
    KeyboardModel.mk "macbookpro" "Macbook Pro" getMacBookProKeyboard ].

End KeyboardDefinitions.


(** ** Event dispatch ([KeyboardTester]: [document.onkeydown],
    [document.onkeyup] and the clear button) *)

Inductive Event :=
  | KeyDown (code : string)
  | KeyUp (code : string)
  | ClearAll.

Definition handle (e : Event) (kb : Keyboard.t) : Keyboard.t * list Effect :=
  match e with
  | KeyDown code => Keyboard.onKeyDown code kb
  | KeyUp code => Keyboard.onKeyUp code kb
  | ClearAll => Keyboard.clear kb
  end.

Definition dispatch (kb : Keyboard.t) (e : Event) : Keyboard.t := fst (handle e kb).

(** The keyboard after an ordered sequence of events. *)
Definition run (evs : list Event) (kb : Keyboard.t) : Keyboard.t := foldl dispatch kb evs.

(** ** Vocabulary of the statements *)

(** Display state of the key behind reference [i]. *)
Definition key_state (i : nat) (kb : Keyboard.t) : option KeyState :=
  KeyShape.state <$> Keyboard.keys kb !! i.

Definition key_codes (kb : Keyboard.t) : list string :=
  KeyShape.keyCode <$> Keyboard.keys kb.

(** The index is up to date: rebuilding it changes nothing. *)
Definition index_current (kb : Keyboard.t) : Prop := Keyboard.remap kb = kb.

(** Identifier carried by a key event. *)
Definition event_code (e : Event) : option string :=
  match e with
  | KeyDown code | KeyUp code => Some code
  | ClearAll => None
  end.

(** Events that concern the key with identifier [code]: its own down and
    up events, and every clear. *)
Definition relevant (code : string) (e : Event) : Prop :=
  match event_code e with
  | Some code' => code' = code
  | None => True
  end.

#[global] Instance relevant_dec code e : Decision (relevant code e).
Proof. unfold relevant. destruct (event_code e); apply _. Defined.

(** State an event leaves on the key it concerns. *)
Definition state_after (e : Event) : KeyState :=
  match e with
  | KeyDown _ => Down
  | KeyUp _ => Pressed
  | ClearAll => NeverPressed
  end.

(** Latest relevant event wins; with none, the state is the initial one. *)
Definition latest_wins (code : string) (s0 : KeyState) (evs : list Event) : KeyState :=
  match last (filter (relevant code) evs) with
  | Some e => state_after e
  | None => s0
  end.


(** The keyboard a factory call completes with. *)
Definition built (c : Completion Keyboard.t) : Keyboard.t :=
  match c with
  | Normal kb => kb
  | Throw _ => Keyboard.new
  end.

(** A script that leaves the index up to date when it starts with one. *)
Definition keeps_index {A : Type} (body : Script A) : Prop :=
  ∀ row kb, index_current kb → index_current (body (row, kb)).2.2.

(** A width argument that is left out, null, or a number that is not
    positive. *)
Definition unspecified_or_nonpositive (width : NumArg) : Prop :=
  match width with
  | Omitted | Null => True
  | Num w => (w ≤ 0)%Z
  end.

(** Closing side conditions on concrete keyboards by evaluation: through
    the decision procedure of the statement, or, for an equation whose
    right-hand side is a value, by evaluating its left-hand side. *)
Ltac by_decision := apply (bool_decide_unpack _); vm_compute; exact I.

Ltac by_evaluation :=
  lazymatch goal with
  | |- @eq ?A ?x ?y => exact (@eq_refl A y <: x = y)
  | |- _ => by_decision
  end.

(** ** Painting ([Keyboard.renderKey], [Keyboard.render])

    The element behind [key.$ref] is modelled by what the code reads and
    writes on it: whether it has a parent, its class, the style properties
    and its content, each holding the last value assigned. *)

#[global] Instance KeyState_eq_dec : EqDecision KeyState.
Proof. solve_decision. Defined.

(** The string value of a state of the [KeyState] enum. *)
Definition KeyState_value (s : KeyState) : string :=
  match s with
  | NeverPressed => "NeverPressed"
  | Pressed => "Pressed"
  | Down => "Down"
  end.

(** [n + 'px'] for an integer [n]. *)
Definition px (n : Z) : string := pretty n +:+ "px".

(** Truthiness of a [number|null]: [null] and 0 are falsy. *)
Definition truthy_number (v : option Z) : bool :=
  match v with
  | Some n => negb (n =? 0)%Z
  | None => false
  end.

(** Truthiness of a [string|null]: [null] and the empty string are falsy. *)
Definition truthy_string (v : option string) : bool :=
  match v with
  | Some (String _ _) => true
  | Some EmptyString | None => false
  end.

Module Element.
Record t := mk {
  id : string;
  attached : bool;          (* parentElement is not null *)
  className : string;
  style_left : string;
  style_top : string;
  style_width : string;
  style_height : string;
  style_zIndex : string;
  innerHTML : string
}.

(** [document.createElement('div')] followed by the assignment of its id. *)
Definition create (id : string) : t :=
  mk id false EmptyString EmptyString EmptyString EmptyString EmptyString
     EmptyString EmptyString.

Definition set_attached (v : bool) (e : t) : t :=
  mk (id e) v (className e) (style_left e) (style_top e) (style_width e)
     (style_height e) (style_zIndex e) (innerHTML e).
Definition set_className (v : string) (e : t) : t :=
  mk (id e) (attached e) v (style_left e) (style_top e) (style_width e)
     (style_height e) (style_zIndex e) (innerHTML e).
Definition set_style_left (v : string) (e : t) : t :=
  mk (id e) (attached e) (className e) v (style_top e) (style_width e)
     (style_height e) (style_zIndex e) (innerHTML e).
Definition set_style_top (v : string) (e : t) : t :=
  mk (id e) (attached e) (className e) (style_left e) v (style_width e)
     (style_height e) (style_zIndex e) (innerHTML e).
Definition set_style_width (v : string) (e : t) : t :=
  mk (id e) (attached e) (className e) (style_left e) (style_top e) v
     (style_height e) (style_zIndex e) (innerHTML e).
Definition set_style_height (v : string) (e : t) : t :=
  mk (id e) (attached e) (className e) (style_left e) (style_top e) (style_width e)
     v (style_zIndex e) (innerHTML e).
Definition set_style_zIndex (v : string) (e : t) : t :=
  mk (id e) (attached e) (className e) (style_left e) (style_top e) (style_width e)
     (style_height e) v (innerHTML e).
Definition set_innerHTML (v : string) (e : t) : t :=
  mk (id e) (attached e) (className e) (style_left e) (style_top e) (style_width e)
     (style_height e) (style_zIndex e) v.
End Element.

(** The element [Keyboard.addKey] creates for a key. *)
Definition Keyboard_addKey_ref (key : KeyShape.t) : Element.t :=
  Element.create ("key_" +:+ KeyShape.keyCode key).

(** [renderKey(key)], as a transformer of the key's element. *)
Definition Keyboard_renderKey (key : KeyShape.t) (ref : Element.t) : Element.t :=
  (* if (!key.$ref.parentElement) this.$dom.appendChild(key.$ref) *)
  let ref := if Element.attached ref then ref else Element.set_attached true ref in
  let ref := Element.set_className ("key " +:+ KeyState_value (KeyShape.state key)) ref in
  let ref := Element.set_style_left (px (IPosition.x (KeyShape.position key))) ref in
  let ref := Element.set_style_top (px (IPosition.y (KeyShape.position key))) ref in
  let ref :=
    if truthy_number (ISize.width (KeyShape.size key))
    then Element.set_style_width (px (to_number (ISize.width (KeyShape.size key)))) ref
    else ref in
  let ref :=
    if truthy_string (KeyShape.zIndex key)
    then Element.set_style_zIndex (default EmptyString (KeyShape.zIndex key)) ref
    else ref in
  let ref :=
    if truthy_number (ISize.height (KeyShape.size key))
    then
      let ref :=
        Element.set_style_height (px (to_number (ISize.height (KeyShape.size key)))) ref in
      if truthy_string (KeyShape.zIndex key) then ref
      else Element.set_style_zIndex "10" ref
    else ref in
  (* don't use two rows of text on short keys *)
  match ISize.height (KeyShape.size key) with
  | Some h =>
      if (h <=? 10)%Z
      then Element.set_innerHTML (KeyShape.displayChar key) ref
      else Element.set_innerHTML
             (KeyShape.shiftDisplayChar key +:+ "<br>" +:+ KeyShape.displayChar key) ref
  | None =>
      Element.set_innerHTML
        (KeyShape.shiftDisplayChar key +:+ "<br>" +:+ KeyShape.displayChar key) ref
  end.

(** [render()]: emptying the root detaches every element; then each key is
    painted on its own element, in array order. *)
Definition Keyboard_render (kb : Keyboard.t) (refs : list Element.t) : list Element.t :=
  zip_with Keyboard_renderKey (Keyboard.keys kb) (Element.set_attached false <$> refs).

(** ** Sequences of builder calls *)

(** A call on a row. *)
Inductive RowCall :=
  | AddKey (displayChar keyCode : string) (width : NumArg) (shiftChar : option string)
  | AddGap (width : Z).

Definition row_call (s : KeyboardRow.t * Keyboard.t) (c : RowCall)
  : KeyboardRow.t * Keyboard.t :=
  match c with
  | AddKey displayChar keyCode width shiftChar =>
      let '(_, row, kb) := KeyboardRow_addKey displayChar keyCode width shiftChar s.1 s.2 in
      (row, kb)
  | AddGap width => KeyboardRow_addGap width s.1 s.2
  end.




(** The width a key takes in its row: its own, or the keyboard's default. *)
Definition key_width (kb : Keyboard.t) (k : KeyShape.t) : Z :=
  to_number (ISize.width (applyDefaultsTo (KeyShape.size k) (Keyboard.keySize kb))).




(** Keyboards reached by the constructor, the builder and the event
    handlers, where a key that had fields assigned that may include its
    [keyCode] is followed by [remap()]. *)
Inductive maintained : Keyboard.t → Prop :=
  | maintained_new : maintained Keyboard.new
  | maintained_nextRow gap kb :
      maintained kb → maintained (Keyboard.nextRow gap kb).2
  | maintained_row_call row kb c :
      maintained kb → maintained (row_call (row, kb) c).2
  | maintained_dispatch kb e : maintained kb → maintained (dispatch kb e)
  | maintained_assign ref f kb :
      (∀ k, KeyShape.keyCode (f k) = KeyShape.keyCode k) →
      maintained kb → maintained (Keyboard.update_key ref f kb)
  | maintained_remap ref f kb :
      maintained kb → maintained (Keyboard.remap (Keyboard.update_key ref f kb)).

(** ** The index built by [remap] *)

Section Index.
Implicit Types (ks : list KeyShape.t) (m : gmap string nat) (k : KeyShape.t).

Lemma index_from_snoc i ks k m :
  index_from i (ks ++ [k]) m
  = <[KeyShape.keyCode k := i + length ks]> (index_from i ks m).
Proof.
  revert i m. induction ks as [|k0 ks IH]; intros i m; simpl.
  - by rewrite Nat.add_0_r.
  - rewrite IH. f_equal. lia.
Qed.

Lemma index_from_codes i ks ks' m :
  KeyShape.keyCode <$> ks = KeyShape.keyCode <$> ks' →
  index_from i ks m = index_from i ks' m.
Proof.
  revert i ks' m. induction ks as [|k ks IH]; intros i [|k' ks'] m Heq;
    simplify_eq/=; [done|].
  rewrite H. by apply IH.
Qed.

(** A reference found in the index leads to a key with that identifier. *)
Lemma index_lookup_Some ks c r :
  index_from 0 ks ∅ !! c = Some r →
  ∃ k, ks !! r = Some k ∧ KeyShape.keyCode k = c.
Proof.
  revert r. induction ks as [|k ks IH] using rev_ind; intros r.
  - simpl. by rewrite lookup_empty.
  - rewrite index_from_snoc. simpl.
    destruct (decide (KeyShape.keyCode k = c)) as [<-|Hne].
    + rewrite lookup_insert_eq. intros [= <-]. exists k.
      split; [|done]. by rewrite list_lookup_middle.
    + rewrite lookup_insert_ne by done. intros Hr.
      destruct (IH r Hr) as (k' & Hk' & Hc). exists k'. split; [|done].
      rewrite lookup_app_l; [done|]. by eapply lookup_lt_Some.
Qed.

(** An identifier that no key carries is absent from the index. *)
Lemma index_lookup_None ks c :
  (∀ k, k ∈ ks → KeyShape.keyCode k ≠ c) → index_from 0 ks ∅ !! c = None.
Proof.
  intros Hno. destruct (index_from 0 ks ∅ !! c) as [r|] eqn:Hr; [|done].
  destruct (index_lookup_Some _ _ _ Hr) as (k & Hk & Hc).
  exfalso. eapply Hno; [|exact Hc]. by eapply list_elem_of_lookup_2.
Qed.

Lemma index_lookup_is_Some ks k :
  k ∈ ks → is_Some (index_from 0 ks ∅ !! KeyShape.keyCode k).
Proof.
  induction ks as [|k0 ks IH] using rev_ind; intros Hin.
  - by apply elem_of_nil in Hin.
  - rewrite index_from_snoc. simpl.
    destruct (decide (KeyShape.keyCode k0 = KeyShape.keyCode k)) as [->|Hne].
    + rewrite lookup_insert_eq. by eexists.
    + rewrite lookup_insert_ne by done.
      apply elem_of_app in Hin as [Hin|Hin]; [by apply IH|].
      apply list_elem_of_singleton in Hin. congruence.
Qed.

(** With pairwise-distinct identifiers every key is found under its own. *)
Lemma index_lookup_key ks j k :
  NoDup (KeyShape.keyCode <$> ks) → ks !! j = Some k →
  index_from 0 ks ∅ !! KeyShape.keyCode k = Some j.
Proof.
  intros Hnd Hj.
  destruct (index_lookup_is_Some ks k) as [r Hr]; [by eapply list_elem_of_lookup_2|].
  rewrite Hr. destruct (index_lookup_Some _ _ _ Hr) as (k' & Hk' & Hc).
  f_equal. eapply NoDup_lookup; [exact Hnd| |].
  - rewrite list_lookup_fmap, Hk'. simpl. by rewrite Hc.
  - by rewrite list_lookup_fmap, Hj.
Qed.
End Index.

(** ** The key-state tracker *)

Section Tracker.
Implicit Types (kb : Keyboard.t) (e : Event) (evs : list Event) (c : string).

Lemma index_current_alt kb :
  index_current kb ↔ Keyboard.key_map kb = index_from 0 (Keyboard.keys kb) ∅.
Proof.
  unfold index_current, Keyboard.remap, Keyboard.set_key_map. destruct kb; simpl.
  split; [by intros [= ->]|by intros <-].
Qed.

Lemma index_current_known kb c r :
  index_current kb → Keyboard.key_map kb !! c = Some r →
  ∃ k, Keyboard.keys kb !! r = Some k ∧ KeyShape.keyCode k = c.
Proof.
  intros Hcur%index_current_alt Hr. rewrite Hcur in Hr.
  by apply index_lookup_Some.
Qed.

Lemma index_current_unknown kb c :
  index_current kb → (∀ k, k ∈ Keyboard.keys kb → KeyShape.keyCode k ≠ c) →
  Keyboard.key_map kb !! c = None.
Proof.
  intros Hcur%index_current_alt Hno. rewrite Hcur. by apply index_lookup_None.
Qed.

Lemma index_current_key kb i k :
  index_current kb → NoDup (key_codes kb) → Keyboard.keys kb !! i = Some k →
  Keyboard.key_map kb !! KeyShape.keyCode k = Some i.
Proof.
  intros Hcur%index_current_alt Hnd Hi. rewrite Hcur. by apply index_lookup_key.
Qed.

Lemma codes_alter (f : KeyShape.t → KeyShape.t) r (ks : list KeyShape.t) :
  (∀ k, KeyShape.keyCode (f k) = KeyShape.keyCode k) →
  KeyShape.keyCode <$> alter f r ks = KeyShape.keyCode <$> ks.
Proof.
  intros Hf. revert r. induction ks as [|k ks IH]; intros [|r]; simpl; [done|done| |].
  - by rewrite Hf.
  - f_equal. apply IH.
Qed.

Lemma codes_alter_state s r (ks : list KeyShape.t) :
  KeyShape.keyCode <$> alter (KeyShape.set_state s) r ks = KeyShape.keyCode <$> ks.
Proof. by apply codes_alter. Qed.

Lemma dispatch_key_map kb e :
  Keyboard.key_map (dispatch kb e) = Keyboard.key_map kb.
Proof.
  unfold dispatch. destruct e as [c|c|]; simpl; [| |done];
    unfold Keyboard.onKeyDown, Keyboard.onKeyUp;
    by destruct (get_property _ c).
Qed.

Lemma dispatch_codes kb e : key_codes (dispatch kb e) = key_codes kb.
Proof.
  unfold dispatch, key_codes. destruct e as [c|c|]; simpl.
  - unfold Keyboard.onKeyDown. destruct (get_property _ c); simpl; try done.
    apply codes_alter_state.
  - unfold Keyboard.onKeyUp. destruct (get_property _ c); simpl; try done.
    apply codes_alter_state.
  - by rewrite <-list_fmap_compose.
Qed.

Lemma dispatch_index_current kb e : index_current kb → index_current (dispatch kb e).
Proof.
  rewrite !index_current_alt, dispatch_key_map. intros ->.
  apply index_from_codes. symmetry. apply dispatch_codes.
Qed.

Lemma run_snoc evs e kb : run (evs ++ [e]) kb = dispatch (run evs kb) e.
Proof. unfold run. by rewrite foldl_snoc. Qed.

Lemma run_app evs evs' kb : run (evs ++ evs') kb = run evs' (run evs kb).
Proof. unfold run. by rewrite foldl_app. Qed.

Lemma run_codes evs kb : key_codes (run evs kb) = key_codes kb.
Proof.
  induction evs as [|e evs IH] using rev_ind; [done|].
  by rewrite run_snoc, dispatch_codes.
Qed.

Lemma run_index_current evs kb : index_current kb → index_current (run evs kb).
Proof.
  intros Hcur. induction evs as [|e evs IH] using rev_ind; [done|].
  rewrite run_snoc. by apply dispatch_index_current.
Qed.

(** A key event leaves every key but the one behind the indexed reference
    as it was. *)
Lemma update_key_lookup_ne kb r f i :
  i ≠ r → Keyboard.keys (Keyboard.update_key r f kb) !! i = Keyboard.keys kb !! i.
Proof. intros Hne. simpl. by apply list_lookup_alter_ne. Qed.

Lemma update_key_state_eq kb r s k :
  Keyboard.keys kb !! r = Some k →
  key_state r (Keyboard.update_key r (KeyShape.set_state s) kb) = Some s.
Proof.
  intros Hk. unfold key_state. simpl. by rewrite list_lookup_alter_eq, Hk.
Qed.

(** Keys whose identifier differs from the dispatched one are untouched. *)
Lemma onKeyDown_other kb c i ci :
  index_current kb → key_codes kb !! i = Some ci → ci ≠ c →
  Keyboard.keys (Keyboard.onKeyDown c kb).1 !! i = Keyboard.keys kb !! i.
Proof.
  intros Hcur Hi Hne. unfold Keyboard.onKeyDown, get_property.
  destruct (Keyboard.key_map kb !! c) as [r|] eqn:Hr; [|done].
  destruct (index_current_known _ _ _ Hcur Hr) as (k & Hk & Hc).
  apply update_key_lookup_ne. intros ->.
  unfold key_codes in Hi. rewrite list_lookup_fmap, Hk in Hi. simplify_eq/=.
Qed.

Lemma onKeyUp_other kb c i ci :
  index_current kb → key_codes kb !! i = Some ci → ci ≠ c →
  Keyboard.keys (Keyboard.onKeyUp c kb).1 !! i = Keyboard.keys kb !! i.
Proof.
  intros Hcur Hi Hne. unfold Keyboard.onKeyUp, get_property.
  destruct (Keyboard.key_map kb !! c) as [r|] eqn:Hr; [|done].
  destruct (index_current_known _ _ _ Hcur Hr) as (k & Hk & Hc).
  apply update_key_lookup_ne. intros ->.
  unfold key_codes in Hi. rewrite list_lookup_fmap, Hk in Hi. simplify_eq/=.
Qed.

(** The key carrying the dispatched identifier takes the event's state. *)
Lemma onKeyDown_own kb i k :
  index_current kb → NoDup (key_codes kb) → Keyboard.keys kb !! i = Some k →
  key_state i (Keyboard.onKeyDown (KeyShape.keyCode k) kb).1 = Some Down.
Proof.
  intros Hcur Hnd Hi. unfold Keyboard.onKeyDown, get_property.
  rewrite (index_current_key _ _ _ Hcur Hnd Hi). simpl.
  by eapply update_key_state_eq.
Qed.

Lemma onKeyUp_own kb i k :
  index_current kb → NoDup (key_codes kb) → Keyboard.keys kb !! i = Some k →
  key_state i (Keyboard.onKeyUp (KeyShape.keyCode k) kb).1 = Some Pressed.
Proof.
  intros Hcur Hnd Hi. unfold Keyboard.onKeyUp, get_property.
  rewrite (index_current_key _ _ _ Hcur Hnd Hi). simpl.
  by eapply update_key_state_eq.
Qed.

Lemma clear_state kb i k :
  Keyboard.keys kb !! i = Some k →
  key_state i (Keyboard.clear kb).1 = Some NeverPressed.
Proof.
  intros Hi. unfold key_state. simpl. by rewrite list_lookup_fmap, Hi.
Qed.

(** One event: the key's state becomes the event's if the event concerns
    the key, and stays otherwise. *)
Lemma dispatch_state kb e i k :
  index_current kb → NoDup (key_codes kb) → Keyboard.keys kb !! i = Some k →
  key_state i (dispatch kb e)
  = Some (if decide (relevant (KeyShape.keyCode k) e)
          then state_after e else KeyShape.state k).
Proof.
  intros Hcur Hnd Hi.
  assert (key_codes kb !! i = Some (KeyShape.keyCode k)) as Hci
    by (unfold key_codes; by rewrite list_lookup_fmap, Hi).
  unfold dispatch. destruct e as [c|c|]; simpl.
  - unfold relevant; simpl. case_decide as Hc.
    + subst c. by apply onKeyDown_own.
    + unfold key_state. rewrite (onKeyDown_other kb c i _ Hcur Hci) by done.
      by rewrite Hi.
  - unfold relevant; simpl. case_decide as Hc.
    + subst c. by apply onKeyUp_own.
    + unfold key_state. rewrite (onKeyUp_other kb c i _ Hcur Hci) by done.
      by rewrite Hi.
  - by eapply clear_state.
Qed.

Lemma latest_wins_snoc c s0 evs e :
  latest_wins c s0 (evs ++ [e])
  = if decide (relevant c e) then state_after e else latest_wins c s0 evs.
Proof.
  unfold latest_wins. rewrite filter_app.
  case_decide as Hrel.
  - rewrite (filter_cons_True _ _ _ Hrel), filter_nil. by rewrite last_snoc.
  - rewrite (filter_cons_False _ _ _ Hrel), filter_nil. by rewrite app_nil_r.
Qed.

Lemma run_state evs kb i k :
  index_current kb → NoDup (key_codes kb) → Keyboard.keys kb !! i = Some k →
  key_state i (run evs kb)
  = Some (latest_wins (KeyShape.keyCode k) (KeyShape.state k) evs).
Proof.
  intros Hcur Hnd Hi.
  induction evs as [|e evs IH] using rev_ind.
  - unfold key_state. simpl. by rewrite Hi.
  - rewrite run_snoc, latest_wins_snoc.
    assert (key_codes (run evs kb) !! i = Some (KeyShape.keyCode k)) as Hci.
    { rewrite run_codes. unfold key_codes. by rewrite list_lookup_fmap, Hi. }
    unfold key_codes in Hci. rewrite list_lookup_fmap in Hci.
    destruct (Keyboard.keys (run evs kb) !! i) as [k'|] eqn:Hk'; [|done].
    simpl in Hci. injection Hci as Hcode.
    rewrite (dispatch_state _ e i k'); [|by apply run_index_current
                                         |by rewrite run_codes|done].
    rewrite Hcode. case_decide; [done|].
    unfold key_state in IH. rewrite Hk' in IH. simpl in IH. by rewrite IH.
Qed.

Lemma alter_swap {A : Type} (f g : A → A) (l : list A) i j :
  i ≠ j → alter f i (alter g j l) = alter g j (alter f i l).
Proof.
  intros Hne. apply list_eq. intros n.
  destruct (decide (n = i)) as [Hi|Hi]; destruct (decide (n = j)) as [Hj|Hj];
    subst; [done|..];
    repeat (rewrite list_lookup_alter_eq || rewrite list_lookup_alter_ne by done);
    done.
Qed.

(** Key events for different identifiers commute. *)
Lemma dispatch_swap kb e1 e2 c1 c2 :
  index_current kb → event_code e1 = Some c1 → event_code e2 = Some c2 →
  c1 ≠ c2 → dispatch (dispatch kb e1) e2 = dispatch (dispatch kb e2) e1.
Proof.
  intros Hcur H1 H2 Hne.
  assert (∀ r1 r2, Keyboard.key_map kb !! c1 = Some r1 →
                   Keyboard.key_map kb !! c2 = Some r2 → r1 ≠ r2) as Hrefs.
  { intros r1 r2 Hr1 Hr2 ->.
    destruct (index_current_known _ _ _ Hcur Hr1) as (k1 & Hk1 & Hc1).
    destruct (index_current_known _ _ _ Hcur Hr2) as (k2 & Hk2 & Hc2).
    congruence. }
  unfold dispatch.
  destruct e1 as [d1|d1|], e2 as [d2|d2|]; simplify_eq/=;
    unfold Keyboard.onKeyDown, Keyboard.onKeyUp, get_property;
    destruct (Keyboard.key_map kb !! c1) as [r1|] eqn:Hr1;
    destruct (Keyboard.key_map kb !! c2) as [r2|] eqn:Hr2; simpl;
    rewrite ?Hr1, ?Hr2; simpl; try done;
    unfold Keyboard.update_key, Keyboard.set_keys; simpl; f_equal;
    apply alter_swap; first [by apply Hrefs | intros Heq; by eapply Hrefs].
Qed.
End Tracker.

(** ** The index stays up to date while a layout is built *)

Section Construction.
Implicit Types (kb : Keyboard.t) (row : KeyboardRow.t).

Lemma new_index_current : index_current Keyboard.new.
Proof. reflexivity. Qed.

Lemma addKey_index_current key kb :
  index_current kb → index_current (Keyboard.addKey key kb).
Proof.
  rewrite !index_current_alt. simpl. intros ->. by rewrite index_from_snoc.
Qed.

Lemma nextRow_index_current gap kb :
  index_current kb → index_current (Keyboard.nextRow gap kb).2.
Proof. by rewrite !index_current_alt. Qed.

Lemma remap_index_current kb : index_current (Keyboard.remap kb).
Proof. by apply index_current_alt. Qed.

Lemma update_key_index_current ref f kb :
  (∀ k, KeyShape.keyCode (f k) = KeyShape.keyCode k) →
  index_current kb → index_current (Keyboard.update_key ref f kb).
Proof.
  intros Hf. rewrite !index_current_alt. simpl. intros ->.
  apply index_from_codes. symmetry. by apply codes_alter.
Qed.

Lemma keeps_index_bind {A B : Type} (c : Script A) (f : A → Script B) :
  keeps_index c → (∀ a, keeps_index (f a)) → keeps_index (c ≫= f).
Proof.
  intros Hc Hf row kb Hkb. specialize (Hc row kb Hkb).
  unfold mbind, script_bind. destruct (c (row, kb)) as [a [row' kb']].
  by apply Hf.
Qed.

Lemma keeps_index_row_addKey displayChar keyCode width shiftChar :
  keeps_index (row_addKey displayChar keyCode width shiftChar).
Proof. intros row kb Hkb. by apply addKey_index_current. Qed.

Lemma keeps_index_row_addGap width : keeps_index (row_addGap width).
Proof. by intros row kb Hkb. Qed.

Lemma keeps_index_keySize_height : keeps_index keySize_height.
Proof. by intros row kb Hkb. Qed.

Lemma keeps_index_read key : keeps_index (read key).
Proof. by intros row kb Hkb. Qed.

Lemma keeps_index_assign key f :
  (∀ k, KeyShape.keyCode (f k) = KeyShape.keyCode k) → keeps_index (assign key f).
Proof. intros Hf row kb Hkb. by apply update_key_index_current. Qed.

Lemma in_row_index_current {A : Type} gap (body : Script A) kb :
  keeps_index body → index_current kb → index_current (in_row gap body kb).
Proof.
  intros Hbody Hkb. unfold in_row.
  destruct (Keyboard.nextRow gap kb) as [row kb'] eqn:Hrow.
  apply Hbody. change kb' with (row, kb').2. rewrite <-Hrow.
  by apply nextRow_index_current.
Qed.
End Construction.

(** One statement of a layout block at a time. *)
Ltac keeps_index :=
  lazymatch goal with
  | |- keeps_index (mbind _ _) =>
      simple apply keeps_index_bind; [keeps_index|intros ?; keeps_index]
  | |- keeps_index (row_addKey _ _ _ _) => simple apply keeps_index_row_addKey
  | |- keeps_index (row_addGap _) => simple apply keeps_index_row_addGap
  | |- keeps_index keySize_height => simple apply keeps_index_keySize_height
  | |- keeps_index (read _) => simple apply keeps_index_read
  | |- keeps_index (assign _ _) =>
      simple apply keeps_index_assign; intros []; reflexivity
  end.

(** A layout made of [in_row] blocks on a new keyboard. *)
Ltac layout_index_current :=
  lazymatch goal with
  | |- index_current (in_row _ _ _) =>
      simple apply in_row_index_current; [keeps_index|layout_index_current]
  | |- index_current Keyboard.new => exact new_index_current
  end.

Section Catalogue.
Import KeyboardDefinitions.

Lemma built_Normal (c : Completion Keyboard.t) (kb : Keyboard.t) :
  c = Normal kb → c = Normal (built c).
Proof. by intros ->. Qed.

Lemma windowsGeneric_index_current :
  index_current (built (getWindowsGenericKeyboard tt)).
Proof.
  unfold getWindowsGenericKeyboard. cbv zeta. unfold built. layout_index_current.
Qed.

Lemma windowsLogitech_index_current :
  index_current (built (getWindowsLogitechKeyboard tt)).
Proof.
  unfold getWindowsLogitechKeyboard. cbv zeta. unfold built. layout_index_current.
Qed.

(** What the Logitech 2 factory returns once the reference of the
    ContextMenu key in the base layout is known. *)
Lemma getWindowsLogitech2Keyboard_eq (base : Keyboard.t) (fnKey : nat) :
  getWindowsLogitechKeyboard tt = Normal base →
  Keyboard.key_map base !! "ContextMenu" = Some fnKey →
  getWindowsLogitech2Keyboard tt
  = Normal (Keyboard.remap
              (Keyboard.update_key fnKey (KeyShape.set_keyCode "Fn")
                 (Keyboard.update_key fnKey (KeyShape.set_displayChar "Fn") base))).
Proof.
  intros Hbase HfnKey. unfold getWindowsLogitech2Keyboard. rewrite Hbase.
  unfold Keyboard.getKey, get_property. by rewrite HfnKey.
Qed.

Lemma windowsLogitech_ContextMenu :
  Keyboard.key_map (built (getWindowsLogitechKeyboard tt)) !! "ContextMenu" = Some 96.
Proof. by_evaluation. Qed.

Lemma windowsLogitech2_built :
  getWindowsLogitech2Keyboard tt
  = Normal (Keyboard.remap
              (Keyboard.update_key 96 (KeyShape.set_keyCode "Fn")
                 (Keyboard.update_key 96 (KeyShape.set_displayChar "Fn")
                    (built (getWindowsLogitechKeyboard tt))))).
Proof.
  apply getWindowsLogitech2Keyboard_eq; [|exact windowsLogitech_ContextMenu].
  eapply built_Normal. reflexivity.
Qed.
End Catalogue.

Section TrackerStickiness.
Implicit Types (kb : Keyboard.t) (e : Event) (evs : list Event) (c : string).

Lemma update_key_state kb r s' i s :
  key_state i kb = Some s →
  key_state i (Keyboard.update_key r (KeyShape.set_state s') kb)
  = Some (if decide (r = i) then s' else s).
Proof.
  unfold key_state. simpl. intros Hs. case_decide as Hri.
  - subst r. rewrite list_lookup_alter_eq.
    destruct (Keyboard.keys kb !! i); by simplify_eq/=.
  - by rewrite list_lookup_alter_ne.
Qed.

Lemma onKeyDown_state_cases kb c i s :
  key_state i kb = Some s →
  key_state i (Keyboard.onKeyDown c kb).1 = Some s
  ∨ key_state i (Keyboard.onKeyDown c kb).1 = Some Down.
Proof.
  intros Hs. unfold Keyboard.onKeyDown.
  destruct (get_property _ c) as [| |r]; simpl; [by left..|].
  rewrite (update_key_state _ _ _ _ _ Hs). case_decide; [by right|by left].
Qed.

Lemma onKeyUp_state_cases kb c i s :
  key_state i kb = Some s →
  key_state i (Keyboard.onKeyUp c kb).1 = Some s
  ∨ key_state i (Keyboard.onKeyUp c kb).1 = Some Pressed.
Proof.
  intros Hs. unfold Keyboard.onKeyUp.
  destruct (get_property _ c) as [| |r]; simpl; [by left..|].
  rewrite (update_key_state _ _ _ _ _ Hs). case_decide; [by right|by left].
Qed.

Lemma dispatch_sticky kb e i s :
  e ≠ ClearAll → key_state i kb = Some s → s ≠ NeverPressed →
  ∃ s', key_state i (dispatch kb e) = Some s' ∧ s' ≠ NeverPressed.
Proof.
  intros He Hs Hne. unfold dispatch. destruct e as [c|c|]; simpl; [| |done].
  - destruct (onKeyDown_state_cases kb c i s Hs) as [->| ->]; eauto.
  - destruct (onKeyUp_state_cases kb c i s Hs) as [->| ->]; eauto.
Qed.

Lemma run_sticky evs kb i s :
  Forall (λ e, e ≠ ClearAll) evs → key_state i kb = Some s → s ≠ NeverPressed →
  ∃ s', key_state i (run evs kb) = Some s' ∧ s' ≠ NeverPressed.
Proof.
  intros Hevs. revert kb s.
  induction Hevs as [|e evs He _ IH]; intros kb s Hs Hne; [by eauto|].
  destruct (dispatch_sticky kb e i s He Hs Hne) as (s1 & Hs1 & Hne1).
  exact (IH _ _ Hs1 Hne1).
Qed.
End TrackerStickiness.

(** ** Properties of the key-state tracker *)

(** C1.  On a keyboard with pairwise-distinct key codes whose index is up to
    date, the state of every key after an ordered sequence of down, up and
    clear events is the one left by the latest event that concerns the key's
    identifier (its initial state when there is none); a key-down or key-up
    leaves every key with another key code untouched; and swapping two
    adjacent key events for different identifiers gives the same keyboard.
    The outcome is a function of the keyboard and the event sequence. *)
Theorem latest_event_wins (kb : Keyboard.t) :
  index_current kb → NoDup (key_codes kb) →
  (∀ evs i k, Keyboard.keys kb !! i = Some k →
     key_state i (run evs kb)
     = Some (latest_wins (KeyShape.keyCode k) (KeyShape.state k) evs))
  ∧ (∀ c i ci, key_codes kb !! i = Some ci → ci ≠ c →
       Keyboard.keys (Keyboard.onKeyDown c kb).1 !! i = Keyboard.keys kb !! i
       ∧ Keyboard.keys (Keyboard.onKeyUp c kb).1 !! i = Keyboard.keys kb !! i)
  ∧ (∀ pre post e1 e2 c1 c2,
       event_code e1 = Some c1 → event_code e2 = Some c2 → c1 ≠ c2 →
       run (pre ++ e1 :: e2 :: post) kb = run (pre ++ e2 :: e1 :: post) kb).
Proof.
  intros Hcur Hnd. split; [|split].
  - intros evs i k Hi. by apply run_state.
  - intros c i ci Hi Hne. split; [by eapply onKeyDown_other|by eapply onKeyUp_other].
  - intros pre post e1 e2 c1 c2 H1 H2 Hne.
    rewrite !run_app. simpl. f_equal.
    eapply dispatch_swap; eauto using run_index_current.
Qed.

Lemma latest_event_wins_witness :
  let kb := built (KeyboardDefinitions.getWindowsGenericKeyboard tt) in
  index_current kb
  ∧ NoDup (key_codes kb)
  ∧ (∀ evs i k, Keyboard.keys kb !! i = Some k →
       key_state i (run evs kb)
       = Some (latest_wins (KeyShape.keyCode k) (KeyShape.state k) evs))
  ∧ (∀ c i ci, key_codes kb !! i = Some ci → ci ≠ c →
       Keyboard.keys (Keyboard.onKeyDown c kb).1 !! i = Keyboard.keys kb !! i
       ∧ Keyboard.keys (Keyboard.onKeyUp c kb).1 !! i = Keyboard.keys kb !! i)
  ∧ (∀ pre post e1 e2 c1 c2,
       event_code e1 = Some c1 → event_code e2 = Some c2 → c1 ≠ c2 →
       run (pre ++ e1 :: e2 :: post) kb = run (pre ++ e2 :: e1 :: post) kb).
Proof.
  intros kb.
  assert (index_current kb) as Hcur by exact windowsGeneric_index_current.
  assert (NoDup (key_codes kb)) as Hnd by by_evaluation.
  exact (conj Hcur (conj Hnd (latest_event_wins kb Hcur Hnd))).
Defined.

(** C2.  A key whose state is not NeverPressed keeps a state other than
    NeverPressed through every sequence of key-down and key-up events;
    key-up for the identifier of a key sets that key to Pressed and key-down
    sets it to Down; and a key event leaves any key either in its state or
    in Down (key-down), respectively Pressed (key-up). *)
Theorem pressed_is_sticky (kb : Keyboard.t) :
  (∀ evs i s, Forall (λ e, e ≠ ClearAll) evs →
     key_state i kb = Some s → s ≠ NeverPressed →
     ∃ s', key_state i (run evs kb) = Some s' ∧ s' ≠ NeverPressed)
  ∧ (index_current kb → NoDup (key_codes kb) →
     ∀ i k, Keyboard.keys kb !! i = Some k →
       key_state i (Keyboard.onKeyUp (KeyShape.keyCode k) kb).1 = Some Pressed
       ∧ key_state i (Keyboard.onKeyDown (KeyShape.keyCode k) kb).1 = Some Down)
  ∧ (∀ c i s, key_state i kb = Some s →
       (key_state i (Keyboard.onKeyDown c kb).1 = Some s
        ∨ key_state i (Keyboard.onKeyDown c kb).1 = Some Down)
       ∧ (key_state i (Keyboard.onKeyUp c kb).1 = Some s
          ∨ key_state i (Keyboard.onKeyUp c kb).1 = Some Pressed)).
Proof.
  split; [|split].
  - intros evs i s. apply run_sticky.
  - intros Hcur Hnd i k Hi. split; [by apply onKeyUp_own|by apply onKeyDown_own].
  - intros c i s Hs. split; [by apply onKeyDown_state_cases|by apply onKeyUp_state_cases].
Qed.

Lemma pressed_is_sticky_witness :
  let kb := run [KeyDown "KeyQ"]
              (built (KeyboardDefinitions.getWindowsGenericKeyboard tt)) in
  let evs := [KeyUp "KeyQ"; KeyDown "KeyW"; KeyDown "KeyQ"; KeyUp "Fn"] in
  let k := KeyShape.mk "q" " " "KeyQ" (ISize.mk None None) (IPosition.mk 40 55)
             None Down in
  Forall (λ e, e ≠ ClearAll) evs
  ∧ key_state 38 kb = Some Down
  ∧ Down ≠ NeverPressed
  ∧ index_current kb
  ∧ NoDup (key_codes kb)
  ∧ Keyboard.keys kb !! 38%nat = Some k
  ∧ (∃ s', key_state 38 (run evs kb) = Some s' ∧ s' ≠ NeverPressed)
  ∧ key_state 38 (Keyboard.onKeyUp (KeyShape.keyCode k) kb).1 = Some Pressed
  ∧ key_state 38 (Keyboard.onKeyDown (KeyShape.keyCode k) kb).1 = Some Down.
Proof.
  intros kb evs k.
  assert (Forall (λ e, e ≠ ClearAll) evs) as Hevs by (repeat constructor; discriminate).
  assert (key_state 38 kb = Some Down) as Hs by by_evaluation.
  assert (Down ≠ NeverPressed) as Hne by discriminate.
  assert (index_current kb) as Hcur
    by exact (run_index_current _ _ windowsGeneric_index_current).
  assert (NoDup (key_codes kb)) as Hnd by by_evaluation.
  assert (Keyboard.keys kb !! 38%nat = Some k) as Hk by by_evaluation.
  exact (conj Hevs (conj Hs (conj Hne (conj Hcur (conj Hnd (conj Hk
           (conj (proj1 (pressed_is_sticky kb) evs 38%nat Down Hevs Hs Hne)
                 (proj1 (proj2 (pressed_is_sticky kb)) Hcur Hnd 38%nat k Hk)))))))).
Defined.

(** C3.  After [clear] every key of the keyboard is NeverPressed, whatever
    its state was; the keys are the same ones, in the same order. *)
Theorem clear_resets_every_key (kb : Keyboard.t) :
  Forall (λ k, KeyShape.state k = NeverPressed) (Keyboard.keys (Keyboard.clear kb).1)
  ∧ key_codes (Keyboard.clear kb).1 = key_codes kb
  ∧ length (Keyboard.keys (Keyboard.clear kb).1) = length (Keyboard.keys kb).
Proof.
  split; [|split].
  - simpl. apply Forall_fmap, Forall_true. by intros k.
  - exact (dispatch_codes kb ClearAll).
  - simpl. by rewrite length_fmap.
Qed.

Lemma onKey_unknown (kb : Keyboard.t) (c : string) :
  index_current kb → c ∉ key_codes kb →
  Keyboard.onKeyDown c kb = (kb, []) ∧ Keyboard.onKeyUp c kb = (kb, []).
Proof.
  intros Hcur Hc.
  assert (Keyboard.key_map kb !! c = None) as Hnone.
  { apply index_current_unknown; [done|]. intros k Hk <-. apply Hc.
    unfold key_codes. by apply list_elem_of_fmap_2. }
  unfold Keyboard.onKeyDown, Keyboard.onKeyUp, get_property. by rewrite Hnone.
Qed.



(** ** Looking a key up by its code *)

(** [getKey] hands back whatever the index holds under the code; with an
    index that is up to date and a code no key carries that is [undefined],
    which is not [=== null], so nothing is logged. *)
Lemma getKey_unknown (kb : Keyboard.t) (c : string) :
  index_current kb → c ∉ key_codes kb → Keyboard.getKey c kb = (undefined, []).
Proof.
  intros Hcur Hc. unfold Keyboard.getKey, get_property.
  rewrite index_current_unknown; [done..|].
  intros k Hk <-. apply Hc. unfold key_codes. by apply list_elem_of_fmap_2.
Qed.


(** C5.  On the Logitech layout no key has the code Fn, and [getKey "Fn"]
    returns [undefined] (no usable key, and no exception) but logs nothing:
    the failure is not reported. *)
Theorem getKey_unknown_not_reported :
  ∃ kb, KeyboardDefinitions.getWindowsLogitechKeyboard tt = Normal kb
    ∧ ("Fn" ∉ key_codes kb)
    ∧ Keyboard.getKey "Fn" kb = (undefined, []).
Proof.
  exists (built (KeyboardDefinitions.getWindowsLogitechKeyboard tt)).
  split; [eapply built_Normal; reflexivity|].
  assert ("Fn" ∉ key_codes (built (KeyboardDefinitions.getWindowsLogitechKeyboard tt)))
    as Hc by by_evaluation.
  split; [exact Hc|].
  apply getKey_unknown; [exact windowsLogitech_index_current|exact Hc].
Qed.

(** ** The layout builder *)








(** ** The catalogue *)

(** Key-up for an identifier the index holds: the key behind the reference
    becomes Pressed and is painted. *)
Lemma onKeyUp_known (kb : Keyboard.t) (c : string) (key : nat) :
  Keyboard.key_map kb !! c = Some key →
  Keyboard.onKeyUp c kb
  = (Keyboard.update_key key (KeyShape.set_state Pressed) kb, [RenderKey key]).
Proof. intros Hkey. unfold Keyboard.onKeyUp, get_property. by rewrite Hkey. Qed.

(** C8.  The Logitech 2 layout is the Logitech layout with the code of its
    ContextMenu key changed to Fn and the index rebuilt.  On it, key-up for
    ContextMenu changes nothing, and key-up for Fn takes the relabelled key,
    never pressed so far, to Pressed and touches no other key. *)
Theorem logitech2_Fn_replaces_ContextMenu :
  ∃ base kb fnKey,
    KeyboardDefinitions.getWindowsLogitechKeyboard tt = Normal base
    ∧ KeyboardDefinitions.getWindowsLogitech2Keyboard tt = Normal kb
    ∧ key_codes base !! fnKey = Some "ContextMenu"
    ∧ key_codes kb = <[fnKey := "Fn"]> (key_codes base)
    ∧ index_current kb
    ∧ Keyboard.onKeyUp "ContextMenu" kb = (kb, [])
    ∧ key_state fnKey kb = Some NeverPressed
    ∧ key_state fnKey (Keyboard.onKeyUp "Fn" kb).1 = Some Pressed
    ∧ Keyboard.onKeyUp "Fn" kb
      = (Keyboard.update_key fnKey (KeyShape.set_state Pressed) kb, [RenderKey fnKey]).
Proof.
  eexists _, _, 96.
  split; [eapply built_Normal; reflexivity|].
  split; [exact windowsLogitech2_built|].
  split; [by_evaluation|]. split; [by_decision|].
  split; [apply remap_index_current|].
  split; [apply onKey_unknown; [apply remap_index_current|by_evaluation]|].
  split; [by_evaluation|]. split; [by_evaluation|].
  apply onKeyUp_known. by_evaluation.
Qed.

(** C9.  The catalogue offers five models, and the keyboard each factory
    builds has pairwise-distinct key codes. *)
Theorem catalogue_key_codes_unique :
  KeyboardModel.id <$> KeyboardDefinitions.getOptions
  = ["cheap"; "hp-lowend"; "logitech"; "logitech2"; "macbookpro"]
  ∧ Forall (λ model, ∃ kb, KeyboardModel.keyboard model tt = Normal kb
                          ∧ NoDup (key_codes kb))
      KeyboardDefinitions.getOptions.
Proof.
  split; [reflexivity|].
  repeat apply Forall_cons_2; [..|apply Forall_nil_2]; simpl.
  - eexists. split; [eapply built_Normal; reflexivity|by_evaluation].
  - eexists. split; [eapply built_Normal; reflexivity|by_evaluation].
  - eexists. split; [eapply built_Normal; reflexivity|by_evaluation].
  - eexists. split; [exact windowsLogitech2_built|by_evaluation].
  - eexists. split; [eapply built_Normal; reflexivity|by_evaluation].
Qed.

(** ** More on the layout builder *)

Section Builder.
Implicit Types (row : KeyboardRow.t) (kb : Keyboard.t) (cs : list RowCall).

(** What one [addKey] call returns. *)
Lemma addKey_result displayChar keyCode width shiftChar row kb :
  ∃ key,
    KeyboardRow_addKey displayChar keyCode width shiftChar row kb
    = (length (Keyboard.keys kb),
       KeyboardRow.mk (KeyboardRow.position row)
         (IPosition.mk
            (IPosition.x (KeyboardRow.nextPosition row) + key_width kb key)
            (IPosition.y (KeyboardRow.nextPosition row))),
       Keyboard.addKey key kb)
    ∧ KeyShape.displayChar key = displayChar
    ∧ KeyShape.keyCode key = keyCode
    ∧ KeyShape.state key = NeverPressed
    ∧ KeyShape.position key = KeyboardRow.nextPosition row
    ∧ KeyShape.zIndex key = None
    ∧ ISize.height (KeyShape.size key) = None
    ∧ ISize.width (KeyShape.size key)
      = (if (0 <? to_number (with_default (-1) width))%Z
         then with_default (-1) width else None).
Proof.
  unfold KeyboardRow_addKey, key_width. eexists. split; [reflexivity|].
  by destruct shiftChar as [[|? ?]|].
Qed.





End Builder.




Section RowCalls.
Implicit Types (row : KeyboardRow.t) (kb : Keyboard.t) (cs : list RowCall).



End RowCalls.



(** ** Rows, from top to bottom *)

Section Rows.
Implicit Types (kb : Keyboard.t) (gaps : list Z).




End Rows.

(** ** More on the index *)

(** X6.  The index is up to date on every keyboard the constructor, the
    builder calls and the event handlers produce, also after assignments to
    key fields, provided [remap()] follows each assignment that may change a
    key code. *)
Theorem index_is_maintained (kb : Keyboard.t) : maintained kb → index_current kb.
Proof.
  induction 1 as [|gap kb _ IH|row kb c _ IH|kb e _ IH|ref f kb Hf _ IH|ref f kb _ _].
  - exact new_index_current.
  - by apply nextRow_index_current.
  - destruct c as [displayChar keyCode width shiftChar|w]; [|done].
    unfold row_call. cbn [fst snd].
    destruct (addKey_result displayChar keyCode width shiftChar row kb)
      as (key & -> & _).
    by apply addKey_index_current.
  - by apply dispatch_index_current.
  - by apply update_key_index_current.
  - apply remap_index_current.
Qed.

Lemma index_is_maintained_witness :
  let kb := Keyboard.remap
              (Keyboard.update_key 0 (KeyShape.set_keyCode "Fn")
                 (row_call ((Keyboard.nextRow Omitted Keyboard.new).1,
                            (Keyboard.nextRow Omitted Keyboard.new).2)
                    (AddKey "Menu" "ContextMenu" (Num 35) None)).2) in
  maintained kb ∧ index_current kb.
Proof.
  intros kb.
  assert (maintained kb) as Hkb
    by (apply maintained_remap, maintained_row_call, maintained_nextRow,
          maintained_new).
  exact (conj Hkb (index_is_maintained kb Hkb)).
Defined.

Section Shadowing.
Implicit Types (kb : Keyboard.t) (ks : list KeyShape.t).

(** The index holds, for a code, the last key that carries it. *)
Lemma index_lookup_last ks c r :
  index_from 0 ks ∅ !! c = Some r →
  ∀ j k, ks !! j = Some k → KeyShape.keyCode k = c → j ≤ r.
Proof.
  revert r. induction ks as [|k0 ks IH] using rev_ind; intros r Hr j k Hj Hc.
  - by rewrite lookup_nil in Hj.
  - rewrite index_from_snoc in Hr. simpl in Hr.
    apply lookup_snoc_Some in Hj as [[Hlt Hj]|[-> ->]].
    + destruct (decide (KeyShape.keyCode k0 = c)) as [Heq|Hne].
      * rewrite Heq, lookup_insert_eq in Hr. injection Hr as <-. lia.
      * rewrite lookup_insert_ne in Hr by done. by eapply IH.
    + rewrite Hc, lookup_insert_eq in Hr. by injection Hr as <-.
Qed.

Lemma dispatch_shadowed kb e i j ki cj :
  index_current kb → e ≠ ClearAll → i < j →
  Keyboard.keys kb !! i = Some ki → key_codes kb !! j = Some cj →
  KeyShape.keyCode ki = cj →
  Keyboard.keys (dispatch kb e) !! i = Some ki.
Proof.
  intros Hcur He Hij Hi Hj Hc.
  assert (∀ c r, Keyboard.key_map kb !! c = Some r → r ≠ i) as Hnot.
  { intros c r Hr ->.
    destruct (index_current_known _ _ _ Hcur Hr) as (k & Hk & Hkc).
    apply index_current_alt in Hcur. rewrite Hcur in Hr.
    unfold key_codes in Hj. rewrite list_lookup_fmap in Hj.
    destruct (Keyboard.keys kb !! j) as [kj|] eqn:Hkj; [|done].
    injection Hj as Hj.
    assert (j ≤ i); [|lia].
    eapply index_lookup_last; [exact Hr|exact Hkj|]. congruence. }
  unfold dispatch. destruct e as [c|c|]; simpl; [| |done].
  - unfold Keyboard.onKeyDown, get_property.
    destruct (Keyboard.key_map kb !! c) as [r|] eqn:Hr; [|done].
    simpl. rewrite list_lookup_alter_ne; [done|]. by eapply Hnot.
  - unfold Keyboard.onKeyUp, get_property.
    destruct (Keyboard.key_map kb !! c) as [r|] eqn:Hr; [|done].
    simpl. rewrite list_lookup_alter_ne; [done|]. by eapply Hnot.
Qed.
End Shadowing.

(** X7.  When two keys carry the same key code, the index (up to date)
    refers to the later one only: no sequence of key-down and key-up events
    changes anything on the earlier key. *)
Theorem shadowed_key_never_reacts (kb : Keyboard.t) (i j : nat) (ki kj : KeyShape.t)
    (evs : list Event) :
  index_current kb → i < j →
  Keyboard.keys kb !! i = Some ki → Keyboard.keys kb !! j = Some kj →
  KeyShape.keyCode ki = KeyShape.keyCode kj →
  Forall (λ e, e ≠ ClearAll) evs →
  Keyboard.keys (run evs kb) !! i = Some ki.
Proof.
  intros Hcur Hij Hi Hj Hc Hevs.
  induction evs as [|e evs IH] using rev_ind; [done|].
  apply Forall_app in Hevs as [Hevs He]. apply Forall_inv in He.
  rewrite run_snoc.
  eapply (dispatch_shadowed _ e i j ki (KeyShape.keyCode kj)); try done.
  - by apply run_index_current.
  - by apply IH.
  - rewrite run_codes. unfold key_codes. by rewrite list_lookup_fmap, Hj.
Qed.

Lemma shadowed_key_never_reacts_witness :
  let k1 := KeyShape.new "-" "Minus" in
  let k2 := KeyShape.new "_" "Minus" in
  let kb := Keyboard.addKey k2 (Keyboard.addKey k1 Keyboard.new) in
  let evs := [KeyDown "Minus"; KeyUp "Minus"; KeyDown "Minus"] in
  index_current kb
  ∧ 0 < 1
  ∧ Keyboard.keys kb !! 0 = Some k1
  ∧ Keyboard.keys kb !! 1 = Some k2
  ∧ KeyShape.keyCode k1 = KeyShape.keyCode k2
  ∧ Forall (λ e, e ≠ ClearAll) evs
  ∧ Keyboard.keys (run evs kb) !! 0 = Some k1.
Proof.
  intros k1 k2 kb evs.
  assert (index_current kb) as Hcur
    by (apply addKey_index_current, addKey_index_current, new_index_current).
  assert (0 < 1) as Hlt by lia.
  assert (Keyboard.keys kb !! 0 = Some k1) as H1 by reflexivity.
  assert (Keyboard.keys kb !! 1 = Some k2) as H2 by reflexivity.
  assert (KeyShape.keyCode k1 = KeyShape.keyCode k2) as Hc by reflexivity.
  assert (Forall (λ e, e ≠ ClearAll) evs) as Hevs by (repeat constructor; discriminate).
  exact (conj Hcur (conj Hlt (conj H1 (conj H2 (conj Hc (conj Hevs
           (shadowed_key_never_reacts kb 0 1 k1 k2 evs Hcur Hlt H1 H2 Hc Hevs))))))).
Defined.

Section Relabel.
Implicit Types (kb : Keyboard.t) (ks : list KeyShape.t) (f : KeyShape.t → KeyShape.t).



End Relabel.





(** ** More on the tracker *)

Section Events.
Implicit Types (kb : Keyboard.t) (e : Event) (evs : list Event).

Lemma fmap_alter_absorb {A B : Type} (g : A → B) (f : A → A) i (l : list A) :
  (∀ x, g (f x) = g x) → g <$> alter f i l = g <$> l.
Proof.
  intros Hgf. revert i. induction l as [|x l IH]; intros [|i]; simpl; [done..| |].
  - by rewrite Hgf.
  - f_equal. apply IH.
Qed.

Lemma render_all_length {A : Type} (l1 l2 : list A) :
  length l1 = length l2 →
  imap (λ ref _, RenderKey ref) l1 = imap (λ ref _, RenderKey ref) l2.
Proof.
  intros Hlen. apply list_eq. intros i. rewrite !list_lookup_imap.
  destruct (l1 !! i) as [x|] eqn:H1; destruct (l2 !! i) as [y|] eqn:H2; try done.
  - apply lookup_lt_Some in H1. apply lookup_ge_None in H2. lia.
  - apply lookup_lt_Some in H2. apply lookup_ge_None in H1. lia.
Qed.

Lemma clear_update_key_state kb r s :
  Keyboard.clear (Keyboard.update_key r (KeyShape.set_state s) kb) = Keyboard.clear kb.
Proof.
  unfold Keyboard.clear, Keyboard.update_key, Keyboard.set_keys. simpl.
  rewrite (fmap_alter_absorb (KeyShape.set_state NeverPressed)) by done.
  f_equal. apply render_all_length. apply length_alter.
Qed.

Lemma clear_dispatch kb e : Keyboard.clear (dispatch kb e) = Keyboard.clear kb.
Proof.
  unfold dispatch. destruct e as [c|c|]; simpl.
  - unfold Keyboard.onKeyDown. destruct (get_property _ c); simpl; try done.
    apply clear_update_key_state.
  - unfold Keyboard.onKeyUp. destruct (get_property _ c); simpl; try done.
    apply clear_update_key_state.
  - unfold Keyboard.clear, Keyboard.set_keys. simpl.
    rewrite <-list_fmap_compose. f_equal. apply render_all_length.
    apply length_fmap.
Qed.

Lemma alter_twice {A : Type} (f : A → A) i (l : list A) :
  (∀ x, f (f x) = f x) → alter f i (alter f i l) = alter f i l.
Proof.
  intros Hf. revert i. induction l as [|x l IH]; intros [|i]; simpl; [done..| |].
  - by rewrite Hf.
  - f_equal. apply IH.
Qed.
End Events.

(** X10.  Key events change nothing on a keyboard but the states of its
    keys: clearing after any sequence of events gives exactly the keyboard,
    and the repaints, that clearing at once would have given. *)
Theorem clear_forgets_history (evs : list Event) (kb : Keyboard.t) :
  Keyboard.clear (run evs kb) = Keyboard.clear kb.
Proof.
  induction evs as [|e evs IH] using rev_ind; [done|].
  by rewrite run_snoc, clear_dispatch.
Qed.

(** X11.  Handling the same event a second time changes nothing more on the
    keyboard and paints the same keys again: a repeated key-down on a key
    that is held still repaints it. *)
Theorem repeated_event_only_repaints (e : Event) (kb : Keyboard.t) :
  handle e (dispatch kb e) = (dispatch kb e, (handle e kb).2).
Proof.
  destruct e as [c|c|].
  - unfold dispatch. simpl. unfold Keyboard.onKeyDown, get_property.
    destruct (Keyboard.key_map kb !! c) as [r|] eqn:Hr; simpl; rewrite Hr; [|done].
    unfold Keyboard.update_key, Keyboard.set_keys. simpl.
    by rewrite alter_twice.
  - unfold dispatch. simpl. unfold Keyboard.onKeyUp, get_property.
    destruct (Keyboard.key_map kb !! c) as [r|] eqn:Hr; simpl; rewrite Hr; [|done].
    unfold Keyboard.update_key, Keyboard.set_keys. simpl.
    by rewrite alter_twice.
  - change (Keyboard.clear (dispatch kb ClearAll)
            = ((Keyboard.clear kb).1, (Keyboard.clear kb).2)).
    rewrite clear_dispatch. by destruct (Keyboard.clear kb).
Qed.

(** ** More on [getKey] *)

(** X13.  On a keyboard with pairwise-distinct key codes and an up-to-date
    index, [getKey] with the code of any key returns the reference of that
    very key and logs nothing. *)
Theorem getKey_finds_every_key (kb : Keyboard.t) (i : nat) (k : KeyShape.t) :
  index_current kb → NoDup (key_codes kb) → Keyboard.keys kb !! i = Some k →
  Keyboard.getKey (KeyShape.keyCode k) kb = (object i, []).
Proof.
  intros Hcur Hnd Hi. unfold Keyboard.getKey, get_property.
  by rewrite (index_current_key kb i k Hcur Hnd Hi).
Qed.

Lemma getKey_finds_every_key_witness :
  let kb := built (KeyboardDefinitions.getWindowsGenericKeyboard tt) in
  let k := KeyShape.mk "q" " " "KeyQ" (ISize.mk None None) (IPosition.mk 40 55)
             None NeverPressed in
  index_current kb
  ∧ NoDup (key_codes kb)
  ∧ Keyboard.keys kb !! 38 = Some k
  ∧ Keyboard.getKey (KeyShape.keyCode k) kb = (object 38, []).
Proof.
  intros kb k.
  assert (index_current kb) as Hcur by exact windowsGeneric_index_current.
  assert (NoDup (key_codes kb)) as Hnd by by_decision.
  assert (Keyboard.keys kb !! 38 = Some k) as Hk by by_evaluation.
  exact (conj Hcur (conj Hnd (conj Hk (getKey_finds_every_key kb 38 k Hcur Hnd Hk)))).
Defined.

(** ** Defaults *)

(** X14.  [applyDefaultsTo] keeps every field the object sets and takes the
    default for every null field; so the result has no null field when the
    defaults have none, and applying the same defaults twice changes
    nothing more. *)
Theorem applyDefaultsTo_fills_nulls (obj defaults : ISize.t) :
  (∀ w, ISize.width obj = Some w →
        ISize.width (applyDefaultsTo obj defaults) = Some w)
  ∧ (∀ h, ISize.height obj = Some h →
          ISize.height (applyDefaultsTo obj defaults) = Some h)
  ∧ (ISize.width obj = None →
     ISize.width (applyDefaultsTo obj defaults) = ISize.width defaults)
  ∧ (ISize.height obj = None →
     ISize.height (applyDefaultsTo obj defaults) = ISize.height defaults)
  ∧ (is_Some (ISize.width defaults) → is_Some (ISize.height defaults) →
     is_Some (ISize.width (applyDefaultsTo obj defaults))
     ∧ is_Some (ISize.height (applyDefaultsTo obj defaults)))
  ∧ applyDefaultsTo (applyDefaultsTo obj defaults) defaults
    = applyDefaultsTo obj defaults.
Proof.
  destruct obj as [[w|] [h|]], defaults as [[dw|] [dh|]];
    unfold applyDefaultsTo, deepCopy; simpl;
    repeat split; intros; simplify_eq/=; by eauto.
Qed.

(** ** Painting *)

(** Case analysis on the tests [renderKey] makes on a key. *)
Ltac paint_cases sz z :=
  unfold Keyboard_renderKey;
  cbn [KeyShape.size KeyShape.zIndex KeyShape.state KeyShape.position
       KeyShape.displayChar KeyShape.shiftDisplayChar KeyShape.set_state];
  destruct (truthy_number (ISize.width sz)), (truthy_string z),
    (truthy_number (ISize.height sz)), (ISize.height sz) as [h|];
  try destruct (h <=? 10)%Z.

Section Painting.
Implicit Types (key : KeyShape.t) (ref : Element.t) (kb : Keyboard.t).

(** Painting a key over its own painting, attached or not, gives the same
    painting. *)
Lemma renderKey_absorbs key ref b :
  Keyboard_renderKey key (Element.set_attached b (Keyboard_renderKey key ref))
  = Keyboard_renderKey key ref.
Proof.
  destruct key as [d sd c sz p z st]. paint_cases sz z;
    destruct ref as [id [|] cl sl stp sw sh szi html]; destruct b; reflexivity.
Qed.

Lemma renderKey_attached key ref :
  Element.attached (Keyboard_renderKey key ref) = true.
Proof.
  destruct key as [d sd c sz p z st]. paint_cases sz z;
    destruct ref as [id [|] cl sl stp sw sh szi html]; reflexivity.
Qed.

Lemma render_absorbs (ks : list KeyShape.t) (refs : list Element.t) :
  zip_with Keyboard_renderKey ks
    (Element.set_attached false
       <$> zip_with Keyboard_renderKey ks (Element.set_attached false <$> refs))
  = zip_with Keyboard_renderKey ks (Element.set_attached false <$> refs).
Proof.
  revert refs. induction ks as [|key ks IH]; intros [|ref refs]; simpl; [done..|].
  rewrite IH. f_equal. apply renderKey_absorbs.
Qed.
End Painting.

(** X15.  Painting is idempotent: [renderKey] on a key it has just painted,
    and [render] on a keyboard it has just rendered, change nothing; and
    every painted element is attached to the root. *)
Theorem painting_is_idempotent (key : KeyShape.t) (ref : Element.t)
    (kb : Keyboard.t) (refs : list Element.t) :
  Keyboard_renderKey key (Keyboard_renderKey key ref) = Keyboard_renderKey key ref
  ∧ Element.attached (Keyboard_renderKey key ref) = true
  ∧ Keyboard_render kb (Keyboard_render kb refs) = Keyboard_render kb refs
  ∧ Forall (λ e, Element.attached e = true) (Keyboard_render kb refs).
Proof.
  split; [|split; [|split]].
  - pose proof (renderKey_absorbs key ref true) as Habs.
    assert (Element.set_attached true (Keyboard_renderKey key ref)
            = Keyboard_renderKey key ref) as Heq.
    { generalize (renderKey_attached key ref).
      destruct (Keyboard_renderKey key ref). simpl. by intros ->. }
    by rewrite Heq in Habs.
  - apply renderKey_attached.
  - apply render_absorbs.
  - unfold Keyboard_render. generalize (Element.set_attached false <$> refs).
    induction (Keyboard.keys kb) as [|k ks IH]; intros [|e es]; simpl;
      try by constructor.
    constructor; [apply renderKey_attached|apply IH].
Qed.

(** X16.  Once a key is painted, painting it again after its state has
    changed rewrites the class of its element and nothing else: events never
    move, resize or relabel a key on screen. *)
Theorem state_change_repaints_class_only (key : KeyShape.t) (s : KeyState)
    (ref : Element.t) :
  Keyboard_renderKey (KeyShape.set_state s key) (Keyboard_renderKey key ref)
  = Element.set_className ("key " +:+ KeyState_value s) (Keyboard_renderKey key ref).
Proof.
  destruct key as [d sd c sz p z st]. paint_cases sz z;
    destruct ref as [id [|] cl sl stp sw sh szi html]; reflexivity.
Qed.

(** X17.  A key placed by [addKey] with an unspecified or non-positive width
    is painted, on the element [Keyboard.addKey] made for it, with its
    class, its position and a two-line label only: no width, height or
    stacking order is written, so the keyboard's default key size never
    reaches the element. *)
Theorem default_size_key_painting (displayChar keyCode : string) (width : NumArg)
    (shiftChar : option string) (row : KeyboardRow.t) (kb : Keyboard.t) :
  unspecified_or_nonpositive width →
  let result := KeyboardRow_addKey displayChar keyCode width shiftChar row kb in
  ∃ key,
    Keyboard.keys result.2 !! result.1.1 = Some key
    ∧ Keyboard_renderKey key (Keyboard_addKey_ref key)
      = Element.mk ("key_" +:+ keyCode) true "key NeverPressed"
          (px (IPosition.x (KeyboardRow.nextPosition row)))
          (px (IPosition.y (KeyboardRow.nextPosition row)))
          EmptyString EmptyString EmptyString
          (KeyShape.shiftDisplayChar key +:+ "<br>" +:+ displayChar).
Proof.
  intros Hw.
  assert ((0 <? to_number (with_default (-1) width))%Z = false) as Hle.
  { apply Z.ltb_ge. destruct width; simpl in *; lia. }
  destruct (addKey_result displayChar keyCode width shiftChar row kb)
    as (key & -> & Hd & Hc & Hs & Hp & Hz & Hh & Hwidth).
  rewrite Hle in Hwidth. exists key. simpl. split; [by apply list_lookup_middle|].
  unfold Keyboard_renderKey, Keyboard_addKey_ref.
  destruct key as [d sd c [w h] p z st]. simpl in *. by subst.
Qed.

Lemma default_size_key_painting_witness :
  let row := (Keyboard.nextRow Omitted Keyboard.new).1 in
  let kb := (Keyboard.nextRow Omitted Keyboard.new).2 in
  unspecified_or_nonpositive Null
  ∧ (let result := KeyboardRow_addKey "1" "Digit1" Null (Some "!") row kb in
     ∃ key,
       Keyboard.keys result.2 !! result.1.1 = Some key
       ∧ Keyboard_renderKey key (Keyboard_addKey_ref key)
         = Element.mk ("key_" +:+ "Digit1") true "key NeverPressed"
             (px (IPosition.x (KeyboardRow.nextPosition row)))
             (px (IPosition.y (KeyboardRow.nextPosition row)))
             EmptyString EmptyString EmptyString
             (KeyShape.shiftDisplayChar key +:+ "<br>" +:+ "1")).
Proof.
  intros row kb.
  exact (conj I (default_size_key_painting "1" "Digit1" Null (Some "!") row kb I)).
Defined.

(** ** The catalogue, ready for use *)

Section CatalogueReady.
Import KeyboardDefinitions.

Lemma windowsHPDesktop_index_current :
  index_current (built (getWindowsHPDesktopKeyboard tt)).
Proof.
  unfold getWindowsHPDesktopKeyboard. cbv zeta. unfold built. layout_index_current.
Qed.

Lemma macBookPro_index_current :
  index_current (built (getMacBookProKeyboard tt)).
Proof.
  unfold getMacBookProKeyboard. cbv zeta. unfold built. layout_index_current.
Qed.

Lemma all_keys_found (kb : Keyboard.t) :
  index_current kb → NoDup (key_codes kb) →
  ∀ i k, Keyboard.keys kb !! i = Some k →
    Keyboard.getKey (KeyShape.keyCode k) kb = (object i, []).
Proof.
  intros Hcur Hnd i k Hi. unfold Keyboard.getKey, get_property.
  by rewrite (index_current_key kb i k Hcur Hnd Hi).
Qed.
End CatalogueReady.

(** X20.  Every factory of the catalogue completes without throwing, and
    the keyboard it builds has an up-to-date index, has every key in the
    state NeverPressed, and lets [getKey] find each of its keys under the
    key's own code. *)
Theorem catalogue_keyboards_ready :
  Forall (λ model,
            ∃ kb, KeyboardModel.keyboard model tt = Normal kb
              ∧ index_current kb
              ∧ Forall (λ k, KeyShape.state k = NeverPressed) (Keyboard.keys kb)
              ∧ (∀ i k, Keyboard.keys kb !! i = Some k →
                   Keyboard.getKey (KeyShape.keyCode k) kb = (object i, [])))
    KeyboardDefinitions.getOptions.
Proof.
  repeat apply Forall_cons_2; [..|apply Forall_nil_2]; simpl.
  - eexists. split; [eapply built_Normal; reflexivity|].
    split; [exact windowsGeneric_index_current|]. split; [by_decision|].
    apply all_keys_found; [exact windowsGeneric_index_current|by_decision].
  - eexists. split; [eapply built_Normal; reflexivity|].
    split; [exact windowsHPDesktop_index_current|]. split; [by_decision|].
    apply all_keys_found; [exact windowsHPDesktop_index_current|by_decision].
  - eexists. split; [eapply built_Normal; reflexivity|].
    split; [exact windowsLogitech_index_current|]. split; [by_decision|].
    apply all_keys_found; [exact windowsLogitech_index_current|by_decision].
  - eexists. split; [exact windowsLogitech2_built|].
    split; [apply remap_index_current|]. split; [by_decision|].
    apply all_keys_found; [apply remap_index_current|by_decision].
  - eexists. split; [eapply built_Normal; reflexivity|].
    split; [exact macBookPro_index_current|]. split; [by_decision|].
    apply all_keys_found; [exact macBookPro_index_current|by_decision].
Qed.

(** ** Whole layouts *)

Section Layout.
Implicit Types (kb : Keyboard.t) (row : KeyboardRow.t) (cs : list RowCall).




End Layout.



